(** * A shallow embedding of [main.py]: the keyword stress scorer and its
      two HTTP handlers.

    Conventions of the embedding.
    - A Python [str] is a Rocq [string]: a sequence of characters, of which
      only the length, equality of characters and the lower-casing are used.
      [str.lower] is a builtin of the host: it is a variable of the sections
      below, and [ascii_lower] is what it does on ASCII text.
    - A Python [float] is read in two ways.  The decimal reading takes it
      as an exact rational of [Q]: every weight of the lexicon is a multiple
      of one half, sums of weights are exact, and [round(x, 2)] is the
      rounding of the exact value to the nearest hundredth, ties to the even
      one; results are compared with [==].  The binary reading, module
      [F64], takes it as the IEEE binary64 number it is and follows lines
      67-76 operation by operation.  The two readings give the same
      hundredth except where the exact product is a tie that the double
      product misses (for instance 5.5 * 100/176, see [tie_in_doubles]).
    - [datetime.utcnow()] is an explicit argument [now], a [datetime] being
      its count of microseconds.
    - A [dict] is an association list in insertion order, a key set again
      keeps its place and takes the new value.
    - In the section of the diagnostic endpoint a string is the UTF-8
      encoding of the text, as its literals are. *)

From Stdlib Require Import List String Ascii Bool Arith ZArith Lia.
From Stdlib Require Import QArith Qround Qminmax Qabs Lqa.
From Stdlib Require Import Floats.
From Stdlib Require Uint63.
Import ListNotations.

Open Scope string_scope.
Open Scope Q_scope.

(** ** Strings *)

Module Str.

(** [kw in text]: [kw] occurs in [text] at some position. *)
Fixpoint contains (kw text : string) : bool :=
  String.prefix kw text
  || match text with
     | EmptyString => false
     | String _ rest => contains kw rest
     end.

(** [len(text)]. *)
Definition len (text : string) : nat := String.length text.

(** What [str.lower] does to one ASCII character. *)
Definition ascii_lower_char (c : ascii) : ascii :=
  let n := nat_of_ascii c in
  if ((65 <=? n) && (n <=? 90))%nat then ascii_of_nat (n + 32) else c.

(** What [str.lower] does to a text of ASCII characters. *)
Fixpoint ascii_lower (s : string) : string :=
  match s with
  | EmptyString => EmptyString
  | String c rest => String (ascii_lower_char c) (ascii_lower rest)
  end.

End Str.

(** ** Dictionaries in insertion order *)

Module Dict.

Section WithValues.

Context {V : Type}.

Definition dict := list (string * V).

(** [d[k] = v]. *)
Fixpoint set (d : dict) (k : string) (v : V) : dict :=
  match d with
  | [] => [(k, v)]
  | (k', v') :: d' =>
      if String.eqb k' k then (k', v) :: d' else (k', v') :: set d' k v
  end.

(** [d.update(other)], the items of [other] in their order. *)
Definition update (d other : dict) : dict :=
  fold_left (fun acc kv => set acc (fst kv) (snd kv)) other d.

(** A dict display [{k1: v1, ...}]. *)
Definition display (entries : list (string * V)) : dict :=
  update [] entries.

(** [{**a, **b, **c}]. *)
Definition unpack3 (a b c : dict) : dict :=
  update (update (update [] a) b) c.

(** [list(d.keys())]. *)
Definition keys (d : dict) : list string := map fst d.

(** [d.get(k)], [None] for a missing key. *)
Fixpoint get (d : dict) (k : string) : option V :=
  match d with
  | [] => None
  | (k', v) :: d' => if String.eqb k' k then Some v else get d' k
  end.

(** [d.pop(k, None)], for the dict it leaves. *)
Fixpoint pop (d : dict) (k : string) : dict :=
  match d with
  | [] => []
  | (k', v) :: d' => if String.eqb k' k then d' else (k', v) :: pop d' k
  end.

End WithValues.

Arguments dict V : clear implicits.

End Dict.

(** ** The lexicon (main.py, lines 37-63) *)

Definition stress_kw : Dict.dict Q :=
  Dict.display
    [ ("stress", 2); ("stressed", 2); ("overwhelmed", 2); ("pressure", 3 # 2);
      ("tired", 1); ("exhausted", 3 # 2); ("burnout", 2); ("workload", 1) ].

Definition anxiety_kw : Dict.dict Q :=
  Dict.display
    [ ("anxious", 2); ("worry", 3 # 2); ("panic", 2); ("nervous", 1);
      ("fear", 3 # 2); ("uneasy", 1) ].

Definition mood_kw : Dict.dict Q :=
  Dict.display
    [ ("sad", 3 # 2); ("down", 1); ("depressed", 2); ("hopeless", 2);
      ("insomnia", 3 # 2); ("sleep", 1 # 2); ("headache", 1 # 2) ].

(** [{**stress_kw, **anxiety_kw, **mood_kw}] (line 69). *)
Definition lexicon : Dict.dict Q := Dict.unpack3 stress_kw anxiety_kw mood_kw.

(** ** Numbers *)

(** The integer nearest to [x], a tie going to the even one. *)
Definition round_half_even (x : Q) : Z :=
  let f := Qfloor x in
  match Qcompare (x - inject_Z f) (1 # 2) with
  | Lt => f
  | Gt => (f + 1)%Z
  | Eq => if Z.even f then f else (f + 1)%Z
  end.

(** [round(x, 2)]. *)
Definition round2 (x : Q) : Q := inject_Z (round_half_even (x * 100)) / 100.

(** [min(1.0, max(0.5, 100 / (n + 1)))] for a text of [n] characters. *)
Definition length_penalty (n : nat) : Q :=
  Qmin 1 (Qmax (1 # 2) (100 / inject_Z (Z.of_nat n + 1))).

(** [x > y] on floats. *)
Definition Qgt_bool (x y : Q) : bool := negb (Qle_bool x y).

(** Lines 78-85. *)
Definition label_of (score : Q) : string :=
  if Qle_bool 6 score then "High"
  else if Qle_bool 3 score then "Moderate"
  else if Qgt_bool score 0 then "Low"
  else "Minimal".

(** ** The scorer (main.py, lines 32-87) *)

Definition datetime : Type := Z.

Record AssessmentResult : Type := mkAssessmentResult {
  score : Q;
  label : string;
  keywords : list string;
  created_at : datetime;
  id : option string
}.

Section Scorer.

(** [str.lower]. *)
Variable lower : string -> string.

(** One turn of the loop of lines 69-72 on the pair [(matched, score)]. *)
Definition scan_step (text_l : string) (acc : list string * Q)
    (item : string * Q) : list string * Q :=
  let '(matched, score) := acc in
  let '(kw, w) := item in
  if Str.contains kw text_l then ((matched ++ [kw])%list, score + w) else acc.

(** The loop of lines 69-72 from [matched = []] and [score = 0.0]. *)
Definition scan (items : Dict.dict Q) (text_l : string) : list string * Q :=
  fold_left (scan_step text_l) items ([], 0).

(** [matched] after the loop. *)
Definition matched_of (text : string) : list string :=
  fst (scan lexicon (lower text)).

(** [score] after the loop (line 72), before it is normalised. *)
Definition raw_score (text : string) : Q :=
  snd (scan lexicon (lower text)).

Definition simple_stress_model (now : datetime) (text : string)
    : AssessmentResult :=
  let text_l := lower text in
  let '(matched, score) := scan lexicon text_l in
  let length_penalty := length_penalty (Str.len text) in
  let score := round2 (score * length_penalty) in
  let label := label_of score in
  mkAssessmentResult score label matched now None.

End Scorer.

(** ** The spec's wording of the score *)

Module Spec.

(** The sum of a list of weights. *)
Definition total (ws : list Q) : Q := fold_right Qplus 0 ws.

(** The keyword of a lexicon entry occurs in the lower-cased text. *)
Definition occurs (text_l : string) (kv : string * Q) : bool :=
  Str.contains (fst kv) text_l.

(** The lexicon entries whose keyword occurs in the lower-cased text. *)
Definition occurring (text_l : string) : Dict.dict Q :=
  filter (occurs text_l) lexicon.

(** "the sum of the weights of all lexicon keywords occurring as
    substrings of the lower-cased text". *)
Definition sum_of_weights (text_l : string) : Q :=
  total (map snd (occurring text_l)).

(** "min(1.0, max(0.5, 100/(len(text)+1)))". *)
Definition penalty (text : string) : Q :=
  Qmin 1 (Qmax (1 # 2) (100 / (inject_Z (Z.of_nat (Str.len text)) + 1))).

(** The four bands of the label. *)
Definition high (s : Q) : Prop := 6 <= s.
Definition moderate (s : Q) : Prop := 3 <= s /\ s < 6.
Definition low (s : Q) : Prop := 0 < s /\ s < 3.
Definition minimal (s : Q) : Prop := s == 0.

(** Exactly one of four propositions holds. *)
Definition exactly_one (a b c d : Prop) : Prop :=
  (a \/ b \/ c \/ d)
  /\ ~ (a /\ b) /\ ~ (a /\ c) /\ ~ (a /\ d)
  /\ ~ (b /\ c) /\ ~ (b /\ d) /\ ~ (c /\ d).

(** The weight a keyword gets from three categories merged in this order:
    the last category that has it decides. *)
Definition later_weight (a b c : Dict.dict Q) (kw : string) : option Q :=
  match Dict.get c kw with
  | Some w => Some w
  | None =>
      match Dict.get b kw with
      | Some w => Some w
      | None => Dict.get a kw
      end
  end.

End Spec.

(** ** The score in binary64 (main.py, lines 37-76) *)

Module F64.

Local Open Scope float_scope.

(** The value of a finite double, [None] for an infinity and a NaN. *)
Definition exact (x : float) : option Q :=
  match Prim2SF x with
  | S754_zero _ => Some 0%Q
  | S754_finite s m e =>
      let v := if (0 <=? e)%Z then inject_Z (Zpos m * 2 ^ e)
               else Zpos m # Z.to_pos (2 ^ (- e)) in
      Some (if s then (- v)%Q else v)
  | _ => None
  end.

(** [n / (d * 2^e)]. *)
Definition scaled (n d : positive) (e : Z) : Q :=
  if (0 <=? e)%Z then Zpos n # Z.to_pos (Zpos d * 2 ^ e)
  else (Zpos n * 2 ^ (- e))%Z # d.

(** The double nearest to [n / d], a tie going to the even mantissa: the
    mantissa is [n / (d * 2^e)] rounded, for the [e] that puts it in
    [2^52, 2^53). *)
Definition nearest (n d : positive) : float :=
  let e0 := (Z.log2 (Zpos n) - Z.log2 (Zpos d) - 53)%Z in
  let e := if Qle_bool (inject_Z (2 ^ 53)) (scaled n d e0)
           then (e0 + 1)%Z else e0 in
  match round_half_even (scaled n d e) with
  | Zpos m => SF2Prim (S754_finite false m e)
  | _ => 0
  end.

(** [round(x, 2)] of a double: the value of [x] is rounded to hundredths,
    a tie going to the even one, and the result is the double nearest to
    that decimal, with the sign of [x]; an infinity and a NaN are
    returned as they are. *)
Definition round2 (x : float) : float :=
  match exact x with
  | Some v =>
      let r := match round_half_even (Qabs v * 100)%Q with
               | Zpos k => nearest k 100
               | _ => 0
               end in
      if get_sign x then - r else r
  | None => x
  end.

(** [float(n)] for [0 <= n < 2^63]. *)
Definition int_to_float (n : Z) : float := of_uint63 (Uint63.of_Z n).

(** [a / b] on integers.  Python rounds the quotient once; so does this
    below [2^53], and from there on to [2^63], which no length reaches,
    both are far below 0.5, the least value line 75 lets through. *)
Definition true_div (a b : Z) : float := int_to_float a / int_to_float b.

(** [max(a, b)] and [min(a, b)]: the second argument is taken when it is
    strictly greater, or strictly less. *)
Definition fmax (a b : float) : float := if a <? b then b else a.
Definition fmin (a b : float) : float := if b <? a then b else a.

(** Line 75. *)
Definition length_penalty (n : nat) : float :=
  fmin 1 (fmax 0.5 (true_div 100 (Z.of_nat n + 1))).

(** Lines 37-63: the weights as the doubles [score += w] adds. *)
Definition stress_kw : Dict.dict float :=
  Dict.display
    [ ("stress", 2); ("stressed", 2); ("overwhelmed", 2); ("pressure", 1.5);
      ("tired", 1); ("exhausted", 1.5); ("burnout", 2); ("workload", 1) ].

Definition anxiety_kw : Dict.dict float :=
  Dict.display
    [ ("anxious", 2); ("worry", 1.5); ("panic", 2); ("nervous", 1);
      ("fear", 1.5); ("uneasy", 1) ].

Definition mood_kw : Dict.dict float :=
  Dict.display
    [ ("sad", 1.5); ("down", 1); ("depressed", 2); ("hopeless", 2);
      ("insomnia", 1.5); ("sleep", 0.5); ("headache", 0.5) ].

Definition lexicon : Dict.dict float :=
  Dict.unpack3 stress_kw anxiety_kw mood_kw.

(** One turn of the loop of lines 69-72. *)
Definition scan_step (text_l : string) (acc : list string * float)
    (item : string * float) : list string * float :=
  let '(matched, score) := acc in
  let '(kw, w) := item in
  if Str.contains kw text_l then ((matched ++ [kw])%list, score + w) else acc.

(** The loop of lines 69-72 from [matched = []] and [score = 0.0]. *)
Definition scan (items : Dict.dict float) (text_l : string)
    : list string * float :=
  fold_left (scan_step text_l) items ([], 0).

(** The field [score] of the result: lines 65-76. *)
Definition score_of (lower : string -> string) (text : string) : float :=
  let text_l := lower text in
  let '(matched, score) := scan lexicon text_l in
  let length_penalty := length_penalty (Str.len text) in
  round2 (score * length_penalty).

(** A sum of doubles, added one after the other from 0.0. *)
Definition sum (ws : list float) : float := fold_left PrimFloat.add ws 0.

(** The weight of the Q reading is the value of the double. *)
Definition same_weight (a : string * float) (b : string * Q) : bool :=
  String.eqb (fst a) (fst b)
  && match exact (snd a) with
     | Some v => Qeq_bool v (snd b)
     | None => false
     end.

End F64.

(** ** The handlers (main.py, lines 137-170) *)

(** The exceptions the handlers catch with [except Exception]. *)
Inductive exn : Type :=
| ImportError
| Exception (msg : string).

(** The values a stored document holds. *)
Inductive value : Type :=
| VNone
| VStr (s : string)
| VFloat (x : Q)
| VList (l : list string)
| VTime (t : datetime)
| VObjectId (oid : string).

Definition document : Type := Dict.dict value.

(** [class AssessmentRequest]: [text: str = Field(..., min_length=10)]. *)
Record AssessmentRequest : Type := mkAssessmentRequest { text : string }.

Definition min_length : nat := 10.

(** The validation of a request body whose [text] field is a string: the
    model is built when the field has [min_length] characters or more. *)
Definition validate_request (body_text : string) : option AssessmentRequest :=
  if (min_length <=? Str.len body_text)%nat
  then Some (mkAssessmentRequest body_text)
  else None.

(** What a POST to [/api/assess] is answered with. *)
Inductive response : Type :=
| Ok200 (result : AssessmentResult)
| UnprocessableEntity422.

Definition status_code (r : response) : Z :=
  match r with
  | Ok200 _ => 200
  | UnprocessableEntity422 => 422
  end%Z.

Definition client_error (r : response) : bool :=
  ((400 <=? status_code r) && (status_code r <? 500))%Z.

Section Handlers.

(** [str.lower] and [str] of the host. *)
Variable lower : string -> string.
Variable py_str : value -> string.

(** The state of the document store. *)
Variable Store : Type.

(** The [database] module: both calls may raise and may change the store. *)
Record database : Type := mkDatabase {
  create_document : string -> document -> Store -> (exn + string) * Store;
  get_documents :
    string -> document -> Z -> Store -> (exn + list document) * Store
}.

(** [None] when [from database import ...] raises [ImportError]. *)
Variable database_module : option database.

(** What a request runs in: the store, the clock, and the texts
    [simple_stress_model] has been called on (a ghost log). *)
Record World : Type := mkWorld {
  store : Store;
  clock : datetime;
  scored : list string
}.

(** A computation that returns or raises, and may change the world. *)
Definition M (A : Type) : Type := World -> (exn + A) * World.

Definition ret {A} (a : A) : M A := fun w => (inr a, w).

Definition raise {A} (e : exn) : M A := fun w => (inl e, w).

Definition bind {A B} (m : M A) (k : A -> M B) : M B :=
  fun w =>
    match m w with
    | (inl e, w') => (inl e, w')
    | (inr a, w') => k a w'
    end.

(** [try: body  except Exception: handler]. *)
Definition try_except {A} (body : M A) (handler : exn -> M A) : M A :=
  fun w =>
    match body w with
    | (inl e, w') => handler e w'
    | (inr a, w') => (inr a, w')
    end.

Notation "x <- m ;; k" := (bind m (fun x => k))
  (at level 61, m at next level, right associativity).

(** A call of [simple_stress_model], logged. *)
Definition call_simple_stress_model (t : string) : M AssessmentResult :=
  fun w =>
    (inr (simple_stress_model lower (clock w) t),
     mkWorld (store w) (clock w) (scored w ++ [t])%list).

(** [from database import ...]. *)
Definition import_database : M database :=
  match database_module with
  | Some db => ret db
  | None => raise ImportError
  end.

(** A call into the store. *)
Definition call_store {A} (f : Store -> (exn + A) * Store) : M A :=
  fun w =>
    let '(r, s) := f (store w) in
    (r, mkWorld s (clock w) (scored w)).

(** [result.id = doc_id]. *)
Definition set_id (result : AssessmentResult) (doc_id : string)
    : AssessmentResult :=
  mkAssessmentResult (score result) (label result) (keywords result)
    (created_at result) (Some doc_id).

(** The dict of lines 144-150. *)
Definition assessment_doc (req : AssessmentRequest)
    (result : AssessmentResult) : document :=
  Dict.display
    [ ("text", VStr (text req));
      ("score", VFloat (score result));
      ("label", VStr (label result));
      ("keywords", VList (keywords result));
      ("created_at", VTime (created_at result)) ].

(** Lines 138-155. *)
Definition assess_text (req : AssessmentRequest) : M AssessmentResult :=
  result <- call_simple_stress_model (text req) ;;
  try_except
    (db <- import_database ;;
     doc_id <- call_store
       (create_document db "assessments" (assessment_doc req result)) ;;
     ret (set_id result doc_id))
    (fun _ => ret result).

(** Lines 164-167. *)
Definition clean (doc : document) : document :=
  let _id := match Dict.get doc "_id" with Some v => v | None => VNone end in
  Dict.pop (Dict.set doc "id" (VStr (py_str _id))) "_id".

(** Lines 159-170. *)
Definition get_history (limit : Z) : M (list document) :=
  try_except
    (db <- import_database ;;
     docs <- call_store (get_documents db "assessments" (Dict.display []) limit) ;;
     ret (map clean docs))
    (fun _ => ret []).

(** A POST to [/api/assess] with a body whose [text] field is
    [body_text]: the body is validated first, and the handler runs only
    on a model that was built. *)
Definition post_assess (body_text : string) : M response :=
  match validate_request body_text with
  | None => ret UnprocessableEntity422
  | Some req => result <- assess_text req ;; ret (Ok200 result)
  end.

(** The persistence step of [assess_text] fails in world [w]: the module
    is absent, or [create_document] raises. *)
Definition persistence_fails (req : AssessmentRequest) (w : World) : Prop :=
  match database_module with
  | None => True
  | Some db =>
      let result := simple_stress_model lower (clock w) (text req) in
      exists e,
        fst (create_document db "assessments" (assessment_doc req result)
               (store w)) = inl e
  end.

(** The query of [get_history] fails in world [w]: the module is absent,
    or [get_documents] raises. *)
Definition query_fails (limit : Z) (w : World) : Prop :=
  match database_module with
  | None => True
  | Some db =>
      exists e,
        fst (get_documents db "assessments" (Dict.display []) limit
               (store w)) = inl e
  end.

End Handlers.

Arguments mkDatabase {Store} _ _.
Arguments create_document {Store} _ _ _ _.
Arguments get_documents {Store} _ _ _ _ _.
Arguments mkWorld {Store} _ _ _.
Arguments store {Store} _.
Arguments clock {Store} _.
Arguments scored {Store} _.
Arguments assess_text lower {Store} database_module req _.
Arguments get_history py_str {Store} database_module limit _.
Arguments post_assess lower {Store} database_module body_text _.
Arguments persistence_fails lower {Store} database_module req w.
Arguments query_fails {Store} database_module limit w.

(** ** The diagnostic endpoint (main.py, lines 100-134) *)

(** What the object [db] of the [database] module shows to
    [test_database]: [db.name] ([None] when [hasattr(db, 'name')] is false)
    and what [db.list_collection_names()] does. *)
Record db_handle : Type := mkDbHandle {
  db_name : option string;
  list_collection_names : exn + list string
}.

(** The truth value of what [os.getenv] returns: a variable that is unset
    or empty counts as false. *)
Definition truthy (v : option string) : bool :=
  match v with
  | Some (String _ _) => true
  | _ => false
  end.

(** Lines 103-110.  The literals hold the bytes of the source's text. *)
Definition initial_report : Dict.dict value :=
  Dict.display
    [ ("backend", VStr "✅ Running");
      ("database", VStr "❌ Not Available");
      ("database_url", VNone);
      ("database_name", VNone);
      ("connection_status", VStr "Not Connected");
      ("collections", VList []) ].

(** A byte [10xxxxxx], which continues a character in UTF-8. *)
Definition utf8_continuation (c : ascii) : bool :=
  match c with
  | Ascii _ _ _ _ _ _ b6 b7 => b7 && negb b6
  end.

(** [len(s)] of an encoded text: the bytes that start a character. *)
Fixpoint utf8_length (s : string) : nat :=
  match s with
  | EmptyString => O
  | String c rest =>
      if utf8_continuation c then utf8_length rest else S (utf8_length rest)
  end.

(** [s[:n]] of an encoded text: the bytes of its first [n] characters. *)
Fixpoint utf8_take (n : nat) (s : string) : string :=
  match s with
  | EmptyString => EmptyString
  | String c rest =>
      if utf8_continuation c then String c (utf8_take n rest)
      else match n with
           | O => EmptyString
           | S n' => String c (utf8_take n' rest)
           end
  end.

Section Diagnostics.

(** [str(e)] and [os.getenv] of the host. *)
Variable exn_str : exn -> string.
Variable getenv : string -> option string.

(** [from database import db]: it raises, or gives [db], which may be
    [None]. *)
Variable imported_db : exn + option db_handle.

(** [s[:50]]: the first 50 characters of [s]. *)
Definition first50 (s : string) : string := utf8_take 50 s.

(** Lines 112-130: the report after the [try] statement. *)
Definition probe_database (response : Dict.dict value) : Dict.dict value :=
  match imported_db with
  | inr (Some db) =>
      let response := Dict.set response "database" (VStr "✅ Available") in
      let response :=
        Dict.set response "database_url" (VStr "✅ Configured") in
      let response :=
        Dict.set response "database_name"
          (VStr match db_name db with
                | Some n => n
                | None => "✅ Connected"
                end) in
      let response := Dict.set response "connection_status" (VStr "Connected") in
      match list_collection_names db with
      | inr collections =>
          let response :=
            Dict.set response "collections" (VList (firstn 10 collections)) in
          Dict.set response "database" (VStr "✅ Connected & Working")
      | inl e =>
          Dict.set response "database"
            (VStr ("⚠️  Connected but Error: " ++ first50 (exn_str e)))
      end
  | inr None =>
      Dict.set response "database" (VStr "⚠️  Available but not initialized")
  | inl ImportError =>
      Dict.set response "database"
        (VStr "❌ Database module not found (run enable-database first)")
  | inl (Exception _ as e) =>
      Dict.set response "database" (VStr ("❌ Error: " ++ first50 (exn_str e)))
  end.

(** Lines 101-134. *)
Definition test_database : Dict.dict value :=
  let response := probe_database initial_report in
  let response :=
    Dict.set response "database_url"
      (VStr (if truthy (getenv "DATABASE_URL") then "✅ Set" else "❌ Not Set")) in
  let response :=
    Dict.set response "database_name"
      (VStr (if truthy (getenv "DATABASE_NAME") then "✅ Set" else "❌ Not Set")) in
  response.

End Diagnostics.

(** ** Texts and stores of the examples *)

Definition stressed_text : string :=
  "I feel so stressed and overwhelmed, I am exhausted".

Definition normal_day_text : string :=
  "nothing unusual today, just a normal day".

(** A text of 175 characters with "stress", "panic" and "worry": raw score
    5.5, and 5.5 * 100/176 = 3.125 exactly. *)
Definition tie_text : string :=
  "stress panic worry" ++ string_of_list_ascii (repeat "x"%char 157).

(** A text of 150 characters. *)
Definition long_text : string :=
  stressed_text ++ stressed_text ++ stressed_text.

(** The entries of [items] other than those of "stress" and "stressed". *)
Definition other_than_stress (items : Dict.dict Q) : Dict.dict Q :=
  filter (fun kv => negb (String.eqb (fst kv) "stress")
                    && negb (String.eqb (fst kv) "stressed")) items.

(** A store whose two calls raise. *)
Definition failing_database : database unit :=
  mkDatabase
    (fun _ _ s => (inl (Exception "store unavailable"), s))
    (fun _ _ _ s => (inl (Exception "store unavailable"), s)).

(** A store that keeps its documents in a list and names them by their
    count. *)
Definition list_database : database (list document) :=
  mkDatabase
    (fun _ doc s => (inr "doc", (s ++ [doc])%list))
    (fun _ _ limit s => (inr (firstn (Z.to_nat limit) s), s)).

(** * Properties *)

(** ** Substrings *)

Module StrFacts.

Lemma prefix_iff (p t : string) :
  String.prefix p t = true <-> exists post, t = p ++ post.
Proof.
  revert t. induction p as [|a p IH]; intros t.
  - destruct t; simpl; split; intros _; eauto.
  - destruct t as [|b t]; simpl.
    + split; [discriminate | intros [post H]; discriminate].
    + destruct (Ascii.ascii_dec a b) as [->|Hab].
      * split.
        -- intros H. apply IH in H as [post ->]. now exists post.
        -- intros [post H]. injection H as ->. apply IH. now exists post.
      * split; [discriminate|].
        intros [post H]. injection H as H1 _. congruence.
Qed.

Lemma append_assoc (a b c : string) : (a ++ b) ++ c = a ++ b ++ c.
Proof. induction a; simpl; congruence. Qed.

Lemma contains_nil (kw : string) :
  Str.contains kw "" = String.prefix kw "".
Proof. simpl. apply orb_false_r. Qed.

Lemma contains_cons (kw : string) (c : ascii) (t : string) :
  Str.contains kw (String c t)
  = String.prefix kw (String c t) || Str.contains kw t.
Proof. reflexivity. Qed.

(** [kw in text] holds exactly when [text] is [pre ++ kw ++ post]. *)
Lemma contains_iff (kw t : string) :
  Str.contains kw t = true <-> exists pre post, t = pre ++ kw ++ post.
Proof.
  split.
  - induction t as [|c t IH].
    + rewrite contains_nil. intros H.
      apply prefix_iff in H as [post H]. now exists "", post.
    + rewrite contains_cons, orb_true_iff. intros [H|H].
      * apply prefix_iff in H as [post H]. now exists "", post.
      * destruct (IH H) as (pre & post & ->). now exists (String c pre), post.
  - intros (pre & post & ->). induction pre as [|c pre IH].
    + change ("" ++ kw ++ post) with (kw ++ post).
      assert (P : String.prefix kw (kw ++ post) = true)
        by (apply prefix_iff; now exists post).
      destruct (kw ++ post) as [|c u].
      * now rewrite contains_nil.
      * now rewrite contains_cons, P.
    + change (String c pre ++ kw ++ post) with (String c (pre ++ kw ++ post)).
      rewrite contains_cons, IH. apply orb_true_r.
Qed.

(** A text that contains [a ++ b] contains [a]. *)
Lemma contains_app_l (a b t : string) :
  Str.contains (a ++ b) t = true -> Str.contains a t = true.
Proof.
  rewrite !contains_iff. intros (pre & post & ->).
  exists pre, (b ++ post). now rewrite append_assoc.
Qed.

End StrFacts.

(** ** The loop *)

Section ScanFacts.

Variable text_l : string.

Lemma scan_from_fst (items : Dict.dict Q) (m : list string) (s : Q) :
  fst (fold_left (scan_step text_l) items (m, s))
  = (m ++ map fst (filter (Spec.occurs text_l) items))%list.
Proof.
  revert m s. induction items as [|[kw w] items IH]; intros m s; simpl.
  - now rewrite app_nil_r.
  - unfold Spec.occurs at 1. simpl.
    destruct (Str.contains kw text_l); simpl.
    + rewrite IH, <- app_assoc. reflexivity.
    + apply IH.
Qed.

Lemma scan_from_snd (items : Dict.dict Q) (m : list string) (s : Q) :
  snd (fold_left (scan_step text_l) items (m, s))
  == s + Spec.total (map snd (filter (Spec.occurs text_l) items)).
Proof.
  revert m s. induction items as [|[kw w] items IH]; intros m s; simpl.
  - ring.
  - unfold Spec.occurs at 1. simpl.
    destruct (Str.contains kw text_l); simpl.
    + rewrite IH. ring.
    + apply IH.
Qed.

Lemma scan_fst (items : Dict.dict Q) :
  fst (scan items text_l) = map fst (filter (Spec.occurs text_l) items).
Proof. unfold scan. now rewrite scan_from_fst. Qed.

Lemma scan_snd (items : Dict.dict Q) :
  snd (scan items text_l) == Spec.total (map snd (filter (Spec.occurs text_l) items)).
Proof. unfold scan. rewrite scan_from_snd. ring. Qed.

End ScanFacts.

(** ** Rounding, the penalty and the label *)

Module NumFacts.

Lemma round_half_even_comp (x y : Q) :
  x == y -> round_half_even x = round_half_even y.
Proof.
  intros E. unfold round_half_even.
  rewrite (Qfloor_comp _ _ E).
  assert (C : Qcompare (x - inject_Z (Qfloor y)) (1 # 2)
              = Qcompare (y - inject_Z (Qfloor y)) (1 # 2))
    by (apply Qcompare_comp; [now rewrite E | reflexivity]).
  now rewrite C.
Qed.

Lemma round2_comp (x y : Q) : x == y -> round2 x = round2 y.
Proof.
  intros E. unfold round2.
  rewrite (round_half_even_comp (x * 100) (y * 100)); [reflexivity|].
  now rewrite E.
Qed.

(** The rounded integer is within one half of the number. *)
Lemma round_half_even_near (x : Q) :
  - (1 # 2) <= inject_Z (round_half_even x) - x <= 1 # 2.
Proof.
  unfold round_half_even.
  pose proof (Qfloor_le x) as Hl. pose proof (Qlt_floor x) as Hu.
  rewrite inject_Z_plus in Hu. change (inject_Z 1) with 1 in Hu.
  destruct (Qcompare (x - inject_Z (Qfloor x)) (1 # 2)) eqn:C.
  - apply Qeq_alt in C.
    destruct (Z.even (Qfloor x)); [|rewrite inject_Z_plus; change (inject_Z 1) with 1];
      lra.
  - apply Qlt_alt in C. lra.
  - apply Qgt_alt in C. rewrite inject_Z_plus. change (inject_Z 1) with 1. lra.
Qed.

Lemma round_half_even_nonneg (x : Q) :
  0 <= x -> (0 <= round_half_even x)%Z.
Proof.
  intros H. unfold round_half_even.
  assert (F : (0 <= Qfloor x)%Z).
  { change 0%Z with (Qfloor 0). now apply Qfloor_resp_le. }
  destruct (Qcompare _ _); [destruct (Z.even _)| |]; lia.
Qed.

(** A score rounded by [round(x, 2)] is a whole number of hundredths. *)
Lemma round2_hundredths (x : Q) :
  round2 x * 100 == inject_Z (round_half_even (x * 100)).
Proof. unfold round2. field. Qed.

Lemma round2_nonneg (x : Q) : 0 <= x -> 0 <= round2 x.
Proof.
  intros H. unfold round2.
  assert (Z0 : (0 <= round_half_even (x * 100))%Z)
    by (apply round_half_even_nonneg; nra).
  assert (Q0 : 0 <= inject_Z (round_half_even (x * 100))).
  { change 0 with (inject_Z 0). now rewrite <- Zle_Qle. }
  apply Qle_shift_div_l; lra.
Qed.

Lemma round2_zero (x : Q) : x == 0 -> round2 x == 0.
Proof. intros E. rewrite (round2_comp x 0 E). reflexivity. Qed.

Lemma chars_pos (n : nat) : 0 < inject_Z (Z.of_nat n + 1).
Proof. change 0 with (inject_Z 0). rewrite <- Zlt_Qlt. lia. Qed.

Lemma length_penalty_bounds (n : nat) :
  1 # 2 <= length_penalty n /\ length_penalty n <= 1.
Proof.
  unfold length_penalty. split.
  - apply Q.min_glb; [lra | apply Q.le_max_l].
  - apply Q.le_min_l.
Qed.

Lemma length_penalty_antitone (n m : nat) :
  (n <= m)%nat -> length_penalty m <= length_penalty n.
Proof.
  intros H. unfold length_penalty.
  apply Q.min_le_compat_l, Q.max_le_compat_l.
  pose proof (chars_pos n) as Pn. pose proof (chars_pos m) as Pm.
  assert (L : inject_Z (Z.of_nat n + 1) <= inject_Z (Z.of_nat m + 1))
    by (rewrite <- Zle_Qle; lia).
  apply Qle_shift_div_l; [assumption|].
  setoid_replace (100 / inject_Z (Z.of_nat m + 1) * inject_Z (Z.of_nat n + 1))
    with (100 * inject_Z (Z.of_nat n + 1) / inject_Z (Z.of_nat m + 1))
    by (field; lra).
  apply Qle_shift_div_r; [assumption | lra].
Qed.

(** The penalty of the code is the penalty as the spec words it. *)
Lemma length_penalty_spec (t : string) :
  length_penalty (Str.len t) == Spec.penalty t.
Proof.
  unfold length_penalty, Spec.penalty.
  assert (E : inject_Z (Z.of_nat (Str.len t) + 1)
              == inject_Z (Z.of_nat (Str.len t)) + 1)
    by (rewrite inject_Z_plus; reflexivity).
  now rewrite E.
Qed.

Lemma label_of_comp (x y : Q) : x == y -> label_of x = label_of y.
Proof.
  intros E. unfold label_of, Qgt_bool.
  assert (B : forall a, Qle_bool a x = Qle_bool a y).
  { intros a. apply eq_true_iff_eq. rewrite !Qle_bool_iff. now rewrite E. }
  assert (B' : forall a, Qle_bool x a = Qle_bool y a).
  { intros a. apply eq_true_iff_eq. rewrite !Qle_bool_iff. now rewrite E. }
  now rewrite !B, B'.
Qed.

End NumFacts.

(** ** Dictionaries *)

Module DictFacts.

Section WithValues.

Context {V : Type}.
Implicit Types (d o : Dict.dict V) (k : string) (v : V).

Lemma keys_set d k v :
  Dict.keys (Dict.set d k v)
  = if in_dec string_dec k (Dict.keys d)
    then Dict.keys d else (Dict.keys d ++ [k])%list.
Proof.
  induction d as [|[k' v'] d IH]; simpl.
  - reflexivity.
  - destruct (String.eqb_spec k' k) as [->|N]; simpl.
    + destruct (string_dec k k); [|congruence].
      reflexivity.
    + destruct (string_dec k' k); [congruence|].
      rewrite IH. destruct (in_dec string_dec k (Dict.keys d)); reflexivity.
Qed.

(** Setting a key never repeats one. *)
Lemma NoDup_set d k v :
  NoDup (Dict.keys d) -> NoDup (Dict.keys (Dict.set d k v)).
Proof.
  intros H. rewrite keys_set.
  destruct (in_dec string_dec k (Dict.keys d)) as [|N]; [assumption|].
  apply NoDup_app; [assumption | repeat constructor; simpl; tauto |].
  intros x Hx [<-|[]]. contradiction.
Qed.

Lemma NoDup_update o d :
  NoDup (Dict.keys d) -> NoDup (Dict.keys (Dict.update d o)).
Proof.
  revert d. unfold Dict.update.
  induction o as [|[k v] o IH]; intros d H; simpl; [assumption|].
  apply IH, NoDup_set, H.
Qed.

Lemma NoDup_display (entries : list (string * V)) :
  NoDup (Dict.keys (Dict.display entries)).
Proof. apply NoDup_update. constructor. Qed.

Lemma NoDup_unpack3 (a b c : Dict.dict V) :
  NoDup (Dict.keys (Dict.unpack3 a b c)).
Proof. unfold Dict.unpack3. do 3 apply NoDup_update. constructor. Qed.

Lemma get_set d k v k' :
  Dict.get (Dict.set d k v) k'
  = if String.eqb k k' then Some v else Dict.get d k'.
Proof.
  induction d as [|[k1 v1] d IH]; simpl.
  - reflexivity.
  - destruct (String.eqb_spec k1 k) as [->|N]; simpl.
    + destruct (String.eqb k k'); reflexivity.
    + rewrite IH. destruct (String.eqb_spec k1 k') as [->|N'];
        [|reflexivity].
      destruct (String.eqb_spec k k'); [congruence | reflexivity].
Qed.

Lemma get_absent d k : ~ In k (Dict.keys d) -> Dict.get d k = None.
Proof.
  induction d as [|[k1 v1] d IH]; simpl; [reflexivity|].
  intros N. destruct (String.eqb_spec k1 k); [tauto|].
  apply IH. tauto.
Qed.

(** After [d.update(o)] a key of [o] has the value [o] gives it, and any
    other key keeps the value it had. *)
Lemma get_update o d k :
  NoDup (Dict.keys o) ->
  Dict.get (Dict.update d o) k
  = match Dict.get o k with Some v => Some v | None => Dict.get d k end.
Proof.
  revert d. unfold Dict.update.
  induction o as [|[k1 v1] o IH]; intros d H; simpl; [reflexivity|].
  inversion H as [|? ? N H']; subst.
  rewrite (IH _ H'), get_set.
  destruct (String.eqb_spec k1 k) as [->|]; [|reflexivity].
  now rewrite (get_absent o k N).
Qed.

End WithValues.

(** In [{**a, **b, **c}] the last dict that has a key decides its value. *)
Lemma get_unpack3 (a b c : Dict.dict Q) (k : string) :
  NoDup (Dict.keys a) -> NoDup (Dict.keys b) -> NoDup (Dict.keys c) ->
  Dict.get (Dict.unpack3 a b c) k = Spec.later_weight a b c k.
Proof.
  intros Ha Hb Hc. unfold Dict.unpack3, Spec.later_weight.
  rewrite (get_update c _ k Hc), (get_update b _ k Hb), (get_update a _ k Ha).
  simpl. destruct (Dict.get c k), (Dict.get b k), (Dict.get a k); reflexivity.
Qed.

End DictFacts.

(** ** The lexicon *)

Module LexFacts.

Lemma lexicon_keys :
  Dict.keys lexicon
  = (Dict.keys stress_kw ++ Dict.keys anxiety_kw ++ Dict.keys mood_kw)%list.
Proof. reflexivity. Qed.

Lemma lexicon_NoDup : NoDup (Dict.keys lexicon).
Proof. apply DictFacts.NoDup_unpack3. Qed.

Lemma lexicon_later (kw : string) :
  Dict.get lexicon kw = Spec.later_weight stress_kw anxiety_kw mood_kw kw.
Proof.
  apply DictFacts.get_unpack3; apply DictFacts.NoDup_display.
Qed.

Lemma lexicon_weights_pos : Forall (fun kv => 0 < snd kv) lexicon.
Proof.
  apply Forall_forall. intros kv H.
  assert (B : forallb (fun kv => Qgt_bool (snd kv) 0) lexicon = true)
    by reflexivity.
  rewrite forallb_forall in B. specialize (B kv H).
  unfold Qgt_bool in B. apply negb_true_iff in B.
  destruct (Qlt_le_dec 0 (snd kv)) as [|L]; [assumption|].
  apply Qle_bool_iff in L. congruence.
Qed.

(** A sum of weights of lexicon entries is not negative. *)
Lemma total_nonneg (f : string * Q -> bool) (items : Dict.dict Q) :
  Forall (fun kv => 0 < snd kv) items ->
  0 <= Spec.total (map snd (filter f items)).
Proof.
  induction 1 as [|kv items P _ IH]; simpl; [lra|].
  destruct (f kv); simpl; lra.
Qed.

End LexFacts.

(** ** The scorer *)

Section ScorerFacts.

Variable lower : string -> string.
Variable now : datetime.
Variable t : string.

Lemma model_keywords :
  keywords (simple_stress_model lower now t) = matched_of lower t.
Proof.
  unfold simple_stress_model, matched_of.
  destruct (scan lexicon (lower t)); reflexivity.
Qed.

Lemma model_score :
  score (simple_stress_model lower now t)
  = round2 (raw_score lower t * length_penalty (Str.len t)).
Proof.
  unfold simple_stress_model, raw_score.
  destruct (scan lexicon (lower t)); reflexivity.
Qed.

Lemma model_label :
  label (simple_stress_model lower now t)
  = label_of (score (simple_stress_model lower now t)).
Proof.
  unfold simple_stress_model.
  destruct (scan lexicon (lower t)); reflexivity.
Qed.

Lemma model_id : id (simple_stress_model lower now t) = None.
Proof.
  unfold simple_stress_model.
  destruct (scan lexicon (lower t)); reflexivity.
Qed.

Lemma matched_filter :
  matched_of lower t
  = filter (fun kw => Str.contains kw (lower t)) (Dict.keys lexicon).
Proof.
  unfold matched_of. rewrite scan_fst. unfold Dict.keys.
  generalize lexicon. intros l.
  induction l as [|[kw w] l IH]; simpl; [reflexivity|].
  unfold Spec.occurs at 1. simpl.
  destruct (Str.contains kw (lower t)); simpl; now rewrite IH.
Qed.

Lemma raw_score_spec : raw_score lower t == Spec.sum_of_weights (lower t).
Proof. unfold raw_score, Spec.sum_of_weights, Spec.occurring. apply scan_snd. Qed.

Lemma raw_score_nonneg : 0 <= raw_score lower t.
Proof.
  rewrite raw_score_spec.
  apply LexFacts.total_nonneg, LexFacts.lexicon_weights_pos.
Qed.

Lemma model_score_nonneg : 0 <= score (simple_stress_model lower now t).
Proof.
  rewrite model_score. apply NumFacts.round2_nonneg.
  pose proof raw_score_nonneg.
  pose proof (NumFacts.length_penalty_bounds (Str.len t)) as [? ?].
  nra.
Qed.

End ScorerFacts.

(** ** The claims about the scorer *)

(** C1, as the code has it: for the text "I feel so stressed and
    overwhelmed, I am exhausted" the scorer matches "stress", "stressed",
    "overwhelmed" and "exhausted" in this order, the raw score is 7.5, the
    length penalty is 1.0, the final score is 7.5 and the label is "High". *)
Theorem stressed_example (now : datetime) :
  let r := simple_stress_model Str.ascii_lower now stressed_text in
  keywords r = ["stress"; "stressed"; "overwhelmed"; "exhausted"]
  /\ raw_score Str.ascii_lower stressed_text == 15 # 2
  /\ length_penalty (Str.len stressed_text) == 1
  /\ score r == 15 # 2
  /\ label r = "High".
Proof.
  cbv zeta. split; [|split; [|split; [|split]]]; vm_compute; reflexivity.
Qed.

(** C1, as the spec states it, fails on this text: "stress" is matched too,
    the raw and the final score are 7.5 and not 5.5, and the label is "High"
    and not "Moderate". *)
Lemma stressed_example_not_moderate :
  let r := simple_stress_model Str.ascii_lower 0%Z stressed_text in
  keywords r <> ["stressed"; "overwhelmed"; "exhausted"]
  /\ ~ raw_score Str.ascii_lower stressed_text == 11 # 2
  /\ ~ score r == 11 # 2
  /\ label r <> "Moderate".
Proof.
  cbv zeta. split; [|split; [|split]]; intros H; vm_compute in H; discriminate.
Qed.

(** The lexicon starts with "stress" and "stressed", and no later entry has
    one of these keywords. *)
Lemma lexicon_head :
  lexicon = ("stress", 2) :: ("stressed", 2) :: skipn 2 lexicon.
Proof. reflexivity. Qed.

Lemma filter_filter_all {A} (p q : A -> bool) (l : list A) :
  forallb p l = true -> filter p (filter q l) = filter q l.
Proof.
  induction l as [|x l IH]; simpl; [reflexivity|].
  rewrite andb_true_iff. intros [Px Pl].
  destruct (q x); simpl; rewrite ?Px, (IH Pl); reflexivity.
Qed.

Lemma filter_cons_true {A} (p : A -> bool) (x : A) (l : list A) :
  p x = true -> filter p (x :: l) = x :: filter p l.
Proof. intros H. simpl. now rewrite H. Qed.

Lemma filter_cons_false {A} (p : A -> bool) (x : A) (l : list A) :
  p x = false -> filter p (x :: l) = filter p l.
Proof. intros H. simpl. now rewrite H. Qed.

Lemma occurring_stressed (text_l : string) :
  Str.contains "stressed" text_l = true ->
  Spec.occurring text_l
  = ("stress", 2) :: ("stressed", 2)
      :: other_than_stress (Spec.occurring text_l).
Proof.
  intros H.
  assert (H' : Str.contains "stress" text_l = true)
    by (apply (StrFacts.contains_app_l "stress" "ed"), H).
  assert (E : Spec.occurring text_l
              = ("stress", 2) :: ("stressed", 2)
                  :: filter (Spec.occurs text_l) (skipn 2 lexicon)).
  { unfold Spec.occurring. rewrite lexicon_head at 1.
    rewrite filter_cons_true by exact H'.
    rewrite filter_cons_true by exact H. reflexivity. }
  rewrite E at 2. unfold other_than_stress.
  rewrite filter_cons_false by reflexivity.
  rewrite filter_cons_false by reflexivity.
  rewrite filter_filter_all by reflexivity. exact E.
Qed.

(** C2: when the lower-cased text contains "stressed", the matched keywords
    contain both "stress" and "stressed" (they come first, in this order), and
    the raw score is 2 + 2 plus the weights of the other keywords that
    occur. *)
Theorem stressed_counts_twice (lower : string -> string) (now : datetime)
    (t : string) :
  Str.contains "stressed" (lower t) = true ->
  let r := simple_stress_model lower now t in
  In "stress" (keywords r) /\ In "stressed" (keywords r)
  /\ keywords r
     = "stress" :: "stressed"
         :: Dict.keys (other_than_stress (Spec.occurring (lower t)))
  /\ Dict.get lexicon "stress" = Some 2
  /\ Dict.get lexicon "stressed" = Some 2
  /\ raw_score lower t
     == 2 + 2
        + Spec.total (map snd (other_than_stress (Spec.occurring (lower t)))).
Proof.
  intros H r.
  assert (K : keywords r
              = "stress" :: "stressed"
                  :: Dict.keys (other_than_stress (Spec.occurring (lower t)))).
  { unfold r. rewrite model_keywords. unfold matched_of. rewrite scan_fst.
    fold (Spec.occurring (lower t)).
    rewrite (occurring_stressed _ H) at 1. reflexivity. }
  split; [rewrite K; left; reflexivity|].
  split; [rewrite K; right; left; reflexivity|].
  split; [exact K|].
  split; [reflexivity|]. split; [reflexivity|].
  rewrite raw_score_spec. unfold Spec.sum_of_weights.
  rewrite (occurring_stressed _ H) at 1.
  unfold Spec.total. cbn [map snd fold_right]. ring.
Qed.

(** A text whose lower-cased form contains "stressed". *)
Lemma stressed_counts_twice_witness :
  Str.contains "stressed" (Str.ascii_lower "So STRESSED lately") = true
  /\ In "stress"
       (keywords (simple_stress_model Str.ascii_lower 0%Z "So STRESSED lately")).
Proof.
  split; [reflexivity|].
  exact (proj1 (stressed_counts_twice Str.ascii_lower 0%Z "So STRESSED lately"
                  eq_refl)).
Defined.

(** ** Labels *)

Lemma label_of_high (s : Q) : 6 <= s -> label_of s = "High".
Proof.
  intros H. unfold label_of. apply Qle_bool_iff in H. now rewrite H.
Qed.

Lemma Qle_bool_false (x y : Q) : Qle_bool x y = false <-> y < x.
Proof.
  rewrite <- not_true_iff_false, Qle_bool_iff. split; lra.
Qed.

Lemma label_of_moderate (s : Q) : 3 <= s -> s < 6 -> label_of s = "Moderate".
Proof.
  intros H3 H6. unfold label_of.
  apply Qle_bool_false in H6. apply Qle_bool_iff in H3. now rewrite H6, H3.
Qed.

Lemma label_of_low (s : Q) : 0 < s -> s < 3 -> label_of s = "Low".
Proof.
  intros H0 H3. unfold label_of, Qgt_bool.
  assert (H6 : s < 6) by lra.
  apply Qle_bool_false in H6, H3, H0. now rewrite H6, H3, H0.
Qed.

Lemma label_of_minimal (s : Q) : s <= 0 -> label_of s = "Minimal".
Proof.
  intros H0. unfold label_of, Qgt_bool.
  assert (H6 : s < 6) by lra. assert (H3 : s < 3) by lra.
  apply Qle_bool_false in H6, H3. apply Qle_bool_iff in H0.
  now rewrite H6, H3, H0.
Qed.

(** The band of a score and its label decide each other. *)
Lemma label_of_bands (s : Q) :
  0 <= s ->
  (Spec.high s <-> label_of s = "High")
  /\ (Spec.moderate s <-> label_of s = "Moderate")
  /\ (Spec.low s <-> label_of s = "Low")
  /\ (Spec.minimal s <-> label_of s = "Minimal").
Proof.
  intros H0. unfold Spec.high, Spec.moderate, Spec.low, Spec.minimal.
  destruct (Qlt_le_dec s 6) as [L6|G6].
  2:{ rewrite (label_of_high s G6).
      repeat split; try discriminate; try tauto; lra. }
  destruct (Qlt_le_dec s 3) as [L3|G3].
  2:{ rewrite (label_of_moderate s G3 L6).
      repeat split; try discriminate; try tauto; lra. }
  destruct (Qlt_le_dec 0 s) as [G0|L0].
  - rewrite (label_of_low s G0 L3).
    repeat split; try discriminate; try tauto; lra.
  - rewrite (label_of_minimal s L0).
    repeat split; try discriminate; try tauto; lra.
Qed.

Lemma bands_exactly_one (s : Q) :
  0 <= s ->
  Spec.exactly_one (Spec.high s) (Spec.moderate s) (Spec.low s)
    (Spec.minimal s).
Proof.
  intros H0.
  unfold Spec.exactly_one, Spec.high, Spec.moderate, Spec.low, Spec.minimal.
  split.
  - destruct (Qlt_le_dec s 6); [|tauto].
    destruct (Qlt_le_dec s 3); [|tauto].
    destruct (Qlt_le_dec 0 s); [tauto|].
    right. right. right. lra.
  - repeat split; intros [A B]; lra.
Qed.

(** C3: the score of a result is not negative and its label is "High" from
    6 on, "Moderate" in [3, 6), "Low" in (0, 3) and "Minimal" at 0; and on
    every non-negative score each label is given exactly in its band, exactly
    one of the four bands holding. *)
Theorem label_by_threshold :
  (forall (lower : string -> string) (now : datetime) (t : string),
      let r := simple_stress_model lower now t in
      0 <= score r
      /\ label r = label_of (score r)
      /\ (Spec.high (score r) -> label r = "High")
      /\ (Spec.moderate (score r) -> label r = "Moderate")
      /\ (Spec.low (score r) -> label r = "Low")
      /\ (Spec.minimal (score r) -> label r = "Minimal"))
  /\ (forall s : Q,
         0 <= s ->
         (Spec.high s <-> label_of s = "High")
         /\ (Spec.moderate s <-> label_of s = "Moderate")
         /\ (Spec.low s <-> label_of s = "Low")
         /\ (Spec.minimal s <-> label_of s = "Minimal")
         /\ Spec.exactly_one (Spec.high s) (Spec.moderate s) (Spec.low s)
              (Spec.minimal s)).
Proof.
  split.
  - intros lower now t r.
    pose proof (model_score_nonneg lower now t) as H0. fold r in H0.
    destruct (label_of_bands (score r) H0) as (Hh & Hm & Hl & Hn).
    assert (L : label r = label_of (score r)) by apply model_label.
    rewrite L. tauto.
  - intros s H0.
    pose proof (label_of_bands s H0). pose proof (bands_exactly_one s H0).
    tauto.
Qed.

(** The score 3 is in the band of "Moderate" and in no other. *)
Lemma label_by_threshold_witness :
  0 <= 3 /\ label_of 3 = "Moderate" /\ ~ Spec.high 3.
Proof.
  assert (H0 : 0 <= 3) by lra.
  destruct (proj2 label_by_threshold 3 H0) as (_ & Hm & _).
  split; [exact H0|]. split.
  - apply Hm. unfold Spec.moderate. lra.
  - unfold Spec.high. lra.
Defined.

(** ** Score *)

Lemma F64_scan_from (text_l : string) (items : Dict.dict float)
    (m : list string) (s : float) :
  fold_left (F64.scan_step text_l) items (m, s)
  = ((m ++ map fst (filter (fun kv => Str.contains (fst kv) text_l) items))%list,
     fold_left PrimFloat.add
       (map snd (filter (fun kv => Str.contains (fst kv) text_l) items)) s).
Proof.
  revert m s. induction items as [|[kw w] items IH]; intros m s; simpl.
  - now rewrite app_nil_r.
  - destruct (Str.contains kw text_l); simpl.
    + rewrite IH, <- app_assoc. reflexivity.
    + apply IH.
Qed.

(** C4, on the doubles the code computes with: the length penalty is
    min(1.0, max(0.5, 100/(len(text)+1))), the final score is
    [round(raw * penalty, 2)], and raw is the sum, from 0.0 and in the order
    of the lexicon, of the weights of the lexicon keywords that occur in the
    lower-cased text; the lexicon has the keys and the weights of lines
    37-63. *)
Theorem score_formula (lower : string -> string) (t : string) :
  F64.length_penalty (Str.len t)
  = F64.fmin 1 (F64.fmax 0.5 (F64.true_div 100 (Z.of_nat (Str.len t) + 1)))
  /\ F64.score_of lower t
     = F64.round2
         (F64.sum
            (map snd
               (filter (fun kv => Str.contains (fst kv) (lower t))
                  F64.lexicon))
          * F64.length_penalty (Str.len t))%float
  /\ Dict.keys F64.lexicon = Dict.keys lexicon
  /\ forallb (fun ab => F64.same_weight (fst ab) (snd ab))
       (combine F64.lexicon lexicon) = true.
Proof.
  split; [reflexivity|]. split.
  - unfold F64.score_of, F64.scan, F64.sum.
    rewrite F64_scan_from. reflexivity.
  - split; vm_compute; reflexivity.
Qed.

(** On [tie_text] the exact product 5.5 * 100/176 is 3.125, a tie between
    3.12 and 3.13.  The double product is 3.1250000000000004, so the code
    returns 3.13, where the rational reading rounds the tie to 3.12. *)
Lemma tie_in_doubles :
  Str.len tie_text = 175%nat
  /\ (5.5 * F64.length_penalty 175 = 0x1.9000000000001p+1)%float
  /\ F64.score_of Str.ascii_lower tie_text = (313 / 100)%float
  /\ raw_score Str.ascii_lower tie_text * length_penalty 175 == 25 # 8
  /\ score (simple_stress_model Str.ascii_lower 0%Z tie_text) == 312 # 100.
Proof.
  split; [|split; [|split; [|split]]]; vm_compute; reflexivity.
Qed.

(** C10: the score is not negative and a hundred times the score is an
    integer. *)
Theorem score_nonneg_two_decimals (lower : string -> string)
    (now : datetime) (t : string) :
  0 <= score (simple_stress_model lower now t)
  /\ exists k : Z,
       (0 <= k)%Z /\ score (simple_stress_model lower now t) * 100 == inject_Z k.
Proof.
  split; [apply model_score_nonneg|].
  rewrite model_score.
  exists (round_half_even (raw_score lower t * length_penalty (Str.len t) * 100)).
  split; [|apply NumFacts.round2_hundredths].
  apply NumFacts.round_half_even_nonneg.
  pose proof (raw_score_nonneg lower t).
  pose proof (NumFacts.length_penalty_bounds (Str.len t)) as [? ?].
  nra.
Qed.

(** C9: a text that is not shorter has a penalty that is not larger, and the
    penalty of every text lies between 0.5 and 1.0. *)
Theorem penalty_antitone_bounded :
  (forall s t : string,
      (Str.len s <= Str.len t)%nat ->
      length_penalty (Str.len t) <= length_penalty (Str.len s))
  /\ (forall t : string,
         1 # 2 <= length_penalty (Str.len t)
         /\ length_penalty (Str.len t) <= 1).
Proof.
  split.
  - intros s t H. now apply NumFacts.length_penalty_antitone.
  - intros t. apply NumFacts.length_penalty_bounds.
Qed.

(** A text of 10 characters against one of 150: the penalties are 1 and
    100/151. *)
Lemma penalty_antitone_bounded_witness :
  (Str.len "ten chars!" <= Str.len long_text)%nat
  /\ length_penalty (Str.len long_text) <= length_penalty (Str.len "ten chars!")
  /\ length_penalty (Str.len long_text) == 100 # 151.
Proof.
  assert (H : (Str.len "ten chars!" <= Str.len long_text)%nat)
    by (vm_compute; lia).
  split; [exact H|]. split.
  - exact (proj1 penalty_antitone_bounded "ten chars!" long_text H).
  - vm_compute. reflexivity.
Defined.

(** ** Texts without a keyword *)

Lemma filter_none {A} (p : A -> bool) (l : list A) :
  (forall x, In x l -> p x = false) -> filter p l = [].
Proof.
  induction l as [|x l IH]; intros H; simpl; [reflexivity|].
  rewrite (H x (or_introl eq_refl)). apply IH.
  intros y Hy. apply H. now right.
Qed.

Lemma occurring_none (text_l : string) :
  (forall kw, In kw (Dict.keys lexicon) -> Str.contains kw text_l = false) ->
  Spec.occurring text_l = [].
Proof.
  intros H. apply filter_none. intros [kw w] Hin.
  apply H. unfold Dict.keys. change kw with (fst (kw, w)). now apply in_map.
Qed.

(** C5: when no lexicon keyword occurs in the lower-cased text the score is
    0, the label is "Minimal" and no keyword is returned; so it is for
    "nothing unusual today, just a normal day". *)
Theorem no_keyword_minimal :
  (forall (lower : string -> string) (now : datetime) (t : string),
      (forall kw, In kw (Dict.keys lexicon) ->
                  Str.contains kw (lower t) = false) ->
      let r := simple_stress_model lower now t in
      score r == 0 /\ label r = "Minimal" /\ keywords r = [])
  /\ (forall now : datetime,
         let r := simple_stress_model Str.ascii_lower now normal_day_text in
         score r == 0 /\ label r = "Minimal" /\ keywords r = []).
Proof.
  assert (G : forall (lower : string -> string) (now : datetime) (t : string),
             (forall kw, In kw (Dict.keys lexicon) ->
                         Str.contains kw (lower t) = false) ->
             let r := simple_stress_model lower now t in
             score r == 0 /\ label r = "Minimal" /\ keywords r = []).
  { intros lower now t H r.
    pose proof (occurring_none _ H) as E.
    assert (S0 : score r == 0).
    { unfold r. rewrite model_score. apply NumFacts.round2_zero.
      rewrite raw_score_spec. unfold Spec.sum_of_weights. rewrite E. simpl. ring. }
    split; [exact S0|]. split.
    - unfold r. rewrite model_label.
      exact (NumFacts.label_of_comp _ 0 S0).
    - unfold r. rewrite model_keywords. unfold matched_of. rewrite scan_fst.
      fold (Spec.occurring (lower t)). now rewrite E. }
  split; [exact G|].
  intros now. apply G.
  assert (B : forallb (fun kw => negb (Str.contains kw
                                         (Str.ascii_lower normal_day_text)))
                (Dict.keys lexicon) = true) by (vm_compute; reflexivity).
  intros kw Hin. rewrite forallb_forall in B.
  apply negb_true_iff. now apply B.
Qed.

(** A text in capitals without a keyword. *)
Lemma no_keyword_minimal_witness :
  score (simple_stress_model Str.ascii_lower 0%Z "ALL GOOD HERE, THANKS") == 0
  /\ label (simple_stress_model Str.ascii_lower 0%Z "ALL GOOD HERE, THANKS")
     = "Minimal"
  /\ keywords (simple_stress_model Str.ascii_lower 0%Z "ALL GOOD HERE, THANKS")
     = [].
Proof.
  apply (proj1 no_keyword_minimal Str.ascii_lower 0%Z "ALL GOOD HERE, THANKS").
  assert (B : forallb (fun kw => negb (Str.contains kw
                                  (Str.ascii_lower "ALL GOOD HERE, THANKS")))
                (Dict.keys lexicon) = true) by (vm_compute; reflexivity).
  intros kw Hin. rewrite forallb_forall in B.
  apply negb_true_iff. now apply B.
Defined.

(** ** Order of the keywords *)

Lemma NoDup_filter_keys (p : string -> bool) (l : list string) :
  NoDup l -> NoDup (filter p l).
Proof.
  induction 1 as [|x l N _ IH]; simpl; [constructor|].
  destruct (p x); [|assumption].
  constructor; [|assumption].
  intros Hin. apply filter_In in Hin. tauto.
Qed.

(** C8: the keywords returned are the keys of the merged lexicon that occur
    in the lower-cased text, in the order of the lexicon; the keys of the
    lexicon are those of the stress, anxiety and mood dicts one after the
    other; a keyword takes the weight of the last category that has it; and
    no keyword is returned twice. *)
Theorem keywords_in_lexicon_order (lower : string -> string)
    (now : datetime) (t : string) :
  let r := simple_stress_model lower now t in
  keywords r
  = filter (fun kw => Str.contains kw (lower t)) (Dict.keys lexicon)
  /\ Dict.keys lexicon
     = (Dict.keys stress_kw ++ Dict.keys anxiety_kw ++ Dict.keys mood_kw)%list
  /\ (forall kw, Dict.get lexicon kw
                 = Spec.later_weight stress_kw anxiety_kw mood_kw kw)
  /\ NoDup (Dict.keys lexicon)
  /\ NoDup (keywords r).
Proof.
  intros r.
  assert (K : keywords r
              = filter (fun kw => Str.contains kw (lower t))
                  (Dict.keys lexicon))
    by (unfold r; rewrite model_keywords; apply matched_filter).
  split; [exact K|].
  split; [apply LexFacts.lexicon_keys|].
  split; [apply LexFacts.lexicon_later|].
  split; [apply LexFacts.lexicon_NoDup|].
  rewrite K. apply NoDup_filter_keys, LexFacts.lexicon_NoDup.
Qed.

(** ** The handlers *)

(** The two outcomes of the call into the store that the goal holds:
    it raised [e], or it returned [a]. *)
Ltac store_call_cases e a :=
  let s := fresh "s" in
  match goal with
  | |- context [create_document ?d ?c ?x ?st] =>
      destruct (create_document d c x st) as [[e|a] s]; cbn [fst snd store clock scored]
  | |- context [get_documents ?d ?c ?f ?l ?st] =>
      destruct (get_documents d c f l st) as [[e|a] s]; cbn [fst snd store clock scored]
  end.

Section HandlerFacts.

Variable lower : string -> string.
Variable py_str : value -> string.
Variable Store : Type.
Variable db : option (database Store).

Lemma validate_short (body : string) :
  (Str.len body < min_length)%nat -> validate_request body = None.
Proof.
  intros H. unfold validate_request.
  destruct (Nat.leb_spec min_length (Str.len body)); [lia | reflexivity].
Qed.

Lemma validate_long (body : string) :
  (min_length <= Str.len body)%nat ->
  validate_request body = Some (mkAssessmentRequest body).
Proof.
  intros H. unfold validate_request.
  destruct (Nat.leb_spec min_length (Str.len body)); [reflexivity | lia].
Qed.

(** [assess_text] never raises: it returns the result of the scorer, with
    the id of the stored document when the store gave one. *)
Lemma assess_text_returns (req : AssessmentRequest) (w : World Store) :
  let result := simple_stress_model lower (clock w) (text req) in
  exists (r : AssessmentResult) (w' : World Store),
    assess_text lower db req w = (inr r, w')
    /\ (r = result \/ exists doc_id, r = set_id result doc_id)
    /\ scored w' = (scored w ++ [text req])%list
    /\ clock w' = clock w.
Proof.
  intros result. unfold assess_text, bind, try_except,
    call_simple_stress_model, import_database, call_store, ret, raise.
  cbn [fst snd store clock scored]. fold result.
  destruct db as [d|]; cbn [fst snd store clock scored].
  - store_call_cases e doc_id.
    + do 2 eexists. split; [reflexivity|]. cbn [fst snd store clock scored]. tauto.
    + do 2 eexists. split; [reflexivity|]. cbn [fst snd store clock scored].
      split; [right; now exists doc_id | tauto].
  - do 2 eexists. split; [reflexivity|]. cbn [fst snd store clock scored]. tauto.
Qed.

Lemma assess_text_degraded (req : AssessmentRequest) (w : World Store) :
  persistence_fails lower db req w ->
  exists w' : World Store,
    assess_text lower db req w
    = (inr (simple_stress_model lower (clock w) (text req)), w').
Proof.
  unfold persistence_fails, assess_text, bind, try_except,
    call_simple_stress_model, import_database, call_store, ret, raise.
  cbn [fst snd store clock scored].
  destruct db as [d|]; cbn [fst snd store clock scored].
  - intros [e He]. revert He.
    store_call_cases e' doc_id; [eauto | discriminate].
  - eauto.
Qed.

Lemma get_history_degraded (limit : Z) (w : World Store) :
  query_fails db limit w ->
  exists w' : World Store, get_history py_str db limit w = (inr [], w').
Proof.
  unfold query_fails, get_history, bind, try_except, import_database,
    call_store, ret, raise.
  destruct db as [d|]; cbn [fst snd store clock scored].
  - intros [e He]. revert He.
    store_call_cases e' docs; [eauto | discriminate].
  - eauto.
Qed.

(** [get_history] never raises. *)
Lemma get_history_returns (limit : Z) (w : World Store) :
  exists (docs : list document) (w' : World Store),
    get_history py_str db limit w = (inr docs, w').
Proof.
  unfold get_history, bind, try_except, import_database, call_store, ret,
    raise.
  destruct db as [d|]; cbn [fst snd store clock scored]; [|eauto].
  store_call_cases e' docs; eauto.
Qed.

End HandlerFacts.

(** C6: a POST whose text is shorter than 10 characters is answered 422, a
    client error, and leaves the world as it was: nothing is scored and the
    store is not called. *)
Theorem short_text_rejected (lower : string -> string) (Store : Type)
    (db : option (database Store)) (body : string) (w : World Store) :
  (Str.len body < 10)%nat ->
  post_assess lower db body w = (inr UnprocessableEntity422, w)
  /\ client_error UnprocessableEntity422 = true
  /\ scored (snd (post_assess lower db body w)) = scored w.
Proof.
  intros H. unfold post_assess.
  rewrite (validate_short body H). repeat split.
Qed.

Lemma short_text_rejected_witness :
  (Str.len "too short" < 10)%nat
  /\ post_assess Str.ascii_lower (Some list_database) "too short"
       (mkWorld [] 0%Z [])
     = (inr UnprocessableEntity422, mkWorld [] 0%Z []).
Proof.
  assert (H : (Str.len "too short" < 10)%nat) by (vm_compute; lia).
  split; [exact H|].
  exact (proj1 (short_text_rejected Str.ascii_lower (list document)
                  (Some list_database) "too short" (mkWorld [] 0%Z []) H)).
Defined.

Lemma score_set_id (r : AssessmentResult) (doc_id : string) :
  score (set_id r doc_id) = score r.
Proof. destruct r. reflexivity. Qed.

(** A POST whose text has 10 characters or more is answered 200 with the
    result of the scorer, which was called once, on this text. *)
Lemma valid_text_scored (lower : string -> string) (Store : Type)
    (db : option (database Store)) (body : string) (w : World Store) :
  (10 <= Str.len body)%nat ->
  exists (r : AssessmentResult) (w' : World Store),
    post_assess lower db body w = (inr (Ok200 r), w')
    /\ score r = score (simple_stress_model lower (clock w) body)
    /\ scored w' = (scored w ++ [body])%list.
Proof.
  intros H. unfold post_assess. rewrite (validate_long body H).
  destruct (assess_text_returns lower Store db (mkAssessmentRequest body) w)
    as (r & w' & E & R & S & _).
  cbn [text] in *. exists r, w'. unfold bind, ret. cbv beta iota. rewrite E.
  split; [reflexivity|]. split; [|exact S].
  destruct R as [->|[doc_id ->]]; [reflexivity | apply score_set_id].
Qed.

(** C7: when the persistence step fails (module absent, or
    [create_document] raises) a valid POST is still answered 200 with the
    result of the scorer, whose id is [None]; and when the query fails
    (module absent, or [get_documents] raises) the history is the empty
    list and no error. *)
Theorem store_failure_degrades :
  (forall (lower : string -> string) (Store : Type)
          (db : option (database Store)) (body : string) (w : World Store),
      (10 <= Str.len body)%nat ->
      persistence_fails lower db (mkAssessmentRequest body) w ->
      exists w' : World Store,
        post_assess lower db body w
        = (inr (Ok200 (simple_stress_model lower (clock w) body)), w')
        /\ id (simple_stress_model lower (clock w) body) = None)
  /\ (forall (py_str : value -> string) (Store : Type)
             (db : option (database Store)) (limit : Z) (w : World Store),
         query_fails db limit w ->
         exists w' : World Store,
           get_history py_str db limit w = (inr [], w')).
Proof.
  split.
  - intros lower Store db body w H F.
    destruct (assess_text_degraded lower Store db _ w F) as [w' E].
    exists w'. unfold post_assess. rewrite (validate_long body H).
    cbn [text] in E. unfold bind, ret. cbv beta iota. rewrite E.
    split; [reflexivity | apply model_id].
  - intros py_str Store db limit w F.
    now apply get_history_degraded.
Qed.

(** A store that raises on both calls, and an absent one. *)
Lemma store_failure_degrades_witness :
  (exists w',
      post_assess Str.ascii_lower (Some failing_database) stressed_text
        (mkWorld tt 0%Z [])
      = (inr (Ok200 (simple_stress_model Str.ascii_lower 0%Z stressed_text)),
         w'))
  /\ (exists w',
         get_history (fun _ => "id") (@None (database unit)) 10%Z
           (mkWorld tt 0%Z [])
         = (inr [], w')).
Proof.
  split.
  - assert (H : (10 <= Str.len stressed_text)%nat) by (vm_compute; lia).
    assert (F : persistence_fails Str.ascii_lower (Some failing_database)
                  (mkAssessmentRequest stressed_text) (mkWorld tt 0%Z []))
      by (exists (Exception "store unavailable"); reflexivity).
    destruct (proj1 store_failure_degrades Str.ascii_lower unit
                (Some failing_database) stressed_text (mkWorld tt 0%Z []) H F)
      as [w' [E _]].
    exists w'. exact E.
  - exact (proj2 store_failure_degrades (fun _ => "id") unit None 10%Z
             (mkWorld tt 0%Z []) I).
Defined.

(** ** Further properties of the scorer and the handlers *)

(** The final score is the hundredth nearest to the raw score times the
    penalty: they differ by 0.005 at most. *)
Theorem score_nearest_hundredth (lower : string -> string) (now : datetime)
    (t : string) :
  let x := raw_score lower t * length_penalty (Str.len t) in
  - (1 # 200) <= score (simple_stress_model lower now t) - x <= 1 # 200.
Proof.
  intros x. rewrite model_score. fold x.
  pose proof (NumFacts.round_half_even_near (x * 100)) as [L U].
  pose proof (NumFacts.round2_hundredths x) as E.
  split; lra.
Qed.

Lemma length_penalty_cases (n : nat) :
  ((n <= 99)%nat -> length_penalty n == 1)
  /\ ((199 <= n)%nat -> length_penalty n == 1 # 2)
  /\ ((99 <= n <= 199)%nat ->
      length_penalty n == 100 / inject_Z (Z.of_nat n + 1)).
Proof.
  unfold length_penalty.
  pose proof (NumFacts.chars_pos n) as P.
  set (d := inject_Z (Z.of_nat n + 1)) in *.
  assert (D : forall k : Z, (Z.of_nat n + 1 <= k)%Z -> d <= inject_Z k)
    by (intros k Hk; unfold d; now rewrite <- Zle_Qle).
  assert (D' : forall k : Z, (k <= Z.of_nat n + 1)%Z -> inject_Z k <= d)
    by (intros k Hk; unfold d; now rewrite <- Zle_Qle).
  repeat split.
  - intros H. assert (L : d <= inject_Z 100) by (apply D; lia).
    change (inject_Z 100) with 100 in L.
    assert (G : 1 <= 100 / d) by (apply Qle_shift_div_l; lra).
    rewrite (Q.max_r (1 # 2) (100 / d)) by lra.
    apply Q.min_l. exact G.
  - intros H. assert (L : inject_Z 200 <= d) by (apply D'; lia).
    change (inject_Z 200) with 200 in L.
    assert (G : 100 / d <= 1 # 2) by (apply Qle_shift_div_r; lra).
    rewrite (Q.max_l (1 # 2) (100 / d)) by exact G.
    apply Q.min_r. lra.
  - intros [H1 H2].
    assert (L : inject_Z 100 <= d) by (apply D'; lia).
    assert (U : d <= inject_Z 200) by (apply D; lia).
    change (inject_Z 100) with 100 in L. change (inject_Z 200) with 200 in U.
    assert (G1 : 100 / d <= 1) by (apply Qle_shift_div_r; lra).
    assert (G2 : 1 # 2 <= 100 / d) by (apply Qle_shift_div_l; lra).
    rewrite (Q.max_r (1 # 2) (100 / d)) by exact G2.
    apply Q.min_r. exact G1.
Qed.


(** The penalty by length: 1.0 up to 99 characters, 0.5 from 199 on, and
    100/(len+1) between. *)
Theorem penalty_by_length (t : string) :
  ((Str.len t <= 99)%nat -> length_penalty (Str.len t) == 1)
  /\ ((199 <= Str.len t)%nat -> length_penalty (Str.len t) == 1 # 2)
  /\ ((99 <= Str.len t <= 199)%nat ->
      length_penalty (Str.len t) == 100 / inject_Z (Z.of_nat (Str.len t) + 1)).
Proof. apply length_penalty_cases. Qed.

Lemma penalty_by_length_witness :
  (Str.len "ten chars!" <= 99)%nat /\ length_penalty (Str.len "ten chars!") == 1.
Proof.
  assert (H : (Str.len "ten chars!" <= 99)%nat) by (vm_compute; lia).
  split; [exact H|].
  exact (proj1 (penalty_by_length "ten chars!") H).
Defined.

(** When [create_document] returns an id, [assess_text] returns the result
    of the scorer with this id, the store is what the call left, and the
    scorer was called once. *)
Theorem assess_text_stored (lower : string -> string) (Store : Type)
    (d : database Store) (req : AssessmentRequest) (w : World Store)
    (doc_id : string) (s' : Store) :
  let result := simple_stress_model lower (clock w) (text req) in
  create_document d "assessments" (assessment_doc req result) (store w)
  = (inr doc_id, s') ->
  assess_text lower (Some d) req w
  = (inr (set_id result doc_id),
     mkWorld s' (clock w) (scored w ++ [text req])%list)
  /\ id (set_id result doc_id) = Some doc_id.
Proof.
  intros result H.
  unfold assess_text, bind, try_except, call_simple_stress_model,
    import_database, call_store, ret.
  cbn [fst snd store clock scored]. fold result. rewrite H.
  split; reflexivity.
Qed.

Lemma assess_text_stored_witness :
  assess_text Str.ascii_lower (Some list_database)
    (mkAssessmentRequest normal_day_text) (mkWorld [] 0%Z [])
  = (inr (set_id (simple_stress_model Str.ascii_lower 0%Z normal_day_text)
            "doc"),
     mkWorld
       [assessment_doc (mkAssessmentRequest normal_day_text)
          (simple_stress_model Str.ascii_lower 0%Z normal_day_text)]
       0%Z [normal_day_text]).
Proof.
  exact (proj1 (assess_text_stored Str.ascii_lower (list document)
                  list_database (mkAssessmentRequest normal_day_text)
                  (mkWorld [] 0%Z []) "doc" _ eq_refl)).
Defined.

(** When [get_documents] returns documents, [get_history] returns them
    cleaned, in their order. *)
Theorem get_history_cleaned (py_str : value -> string) (Store : Type)
    (d : database Store) (limit : Z) (w : World Store)
    (docs : list document) (s' : Store) :
  get_documents d "assessments" (Dict.display []) limit (store w)
  = (inr docs, s') ->
  get_history py_str (Some d) limit w
  = (inr (map (clean py_str) docs), mkWorld s' (clock w) (scored w)).
Proof.
  intros H.
  unfold get_history, bind, try_except, import_database, call_store, ret.
  cbn [fst snd store clock scored]. now rewrite H.
Qed.

Lemma get_history_cleaned_witness :
  get_history (fun _ => "1") (Some list_database) 10%Z
    (mkWorld [[("_id", VObjectId "1"); ("label", VStr "Low")]] 0%Z [])
  = (inr [[("label", VStr "Low"); ("id", VStr "1")]],
     mkWorld [[("_id", VObjectId "1"); ("label", VStr "Low")]] 0%Z []).
Proof.
  exact (get_history_cleaned (fun _ => "1") (list document) list_database
           10%Z (mkWorld [[("_id", VObjectId "1"); ("label", VStr "Low")]]
                   0%Z [])
           _ _ eq_refl).
Defined.

Lemma get_pop_same {V} (d : Dict.dict V) (k : string) :
  NoDup (Dict.keys d) -> Dict.get (Dict.pop d k) k = None.
Proof.
  induction d as [|[k1 v1] d IH]; simpl; [reflexivity|].
  intros N. inversion N as [|? ? N1 N2]; subst.
  destruct (String.eqb_spec k1 k) as [->|Hk].
  - now apply DictFacts.get_absent.
  - simpl. destruct (String.eqb_spec k1 k); [contradiction|]. now apply IH.
Qed.

Lemma get_pop_other {V} (d : Dict.dict V) (k k' : string) :
  k <> k' -> Dict.get (Dict.pop d k) k' = Dict.get d k'.
Proof.
  intros Hk. induction d as [|[k1 v1] d IH]; simpl; [reflexivity|].
  destruct (String.eqb_spec k1 k) as [->|H1].
  - destruct (String.eqb_spec k k'); [contradiction | reflexivity].
  - simpl. now rewrite IH.
Qed.

(** A cleaned document has no "_id", and its "id" is the string of the
    "_id" it had ([str(None)] when it had none). *)
Theorem clean_renames_id (py_str : value -> string) (doc : document) :
  NoDup (Dict.keys doc) ->
  Dict.get (clean py_str doc) "_id" = None
  /\ Dict.get (clean py_str doc) "id"
     = Some (VStr (py_str match Dict.get doc "_id" with
                          | Some v => v
                          | None => VNone
                          end))
  /\ forall k, k <> "_id" -> k <> "id" ->
               Dict.get (clean py_str doc) k = Dict.get doc k.
Proof.
  intros N. unfold clean. split; [|split].
  - apply get_pop_same, DictFacts.NoDup_set, N.
  - rewrite get_pop_other by discriminate.
    rewrite DictFacts.get_set. reflexivity.
  - intros k H1 H2. rewrite get_pop_other by congruence.
    rewrite DictFacts.get_set.
    destruct (String.eqb_spec "id" k); [congruence | reflexivity].
Qed.

Lemma clean_renames_id_witness :
  Dict.get (clean (fun _ => "1") [("_id", VObjectId "1"); ("label", VStr "Low")])
    "_id" = None.
Proof.
  apply (clean_renames_id (fun _ => "1")
           [("_id", VObjectId "1"); ("label", VStr "Low")]).
  repeat constructor; simpl; intuition discriminate.
Defined.

(** ** Rounding keeps order and hundredths *)

Lemma round_half_even_inject (x : Q) (k : Z) :
  x == inject_Z k -> round_half_even x = k.
Proof.
  intros E. rewrite (NumFacts.round_half_even_comp x (inject_Z k) E).
  unfold round_half_even. rewrite Qfloor_Z.
  assert (C : forall q, Qcompare (q - q) (1 # 2) = Lt).
  { intros q. apply Qlt_alt. setoid_replace (q - q) with 0 by ring. reflexivity. }
  now rewrite C.
Qed.

Lemma round_half_even_mono (x y : Q) :
  x <= y -> (round_half_even x <= round_half_even y)%Z.
Proof.
  intros H.
  destruct (Z_le_gt_dec (round_half_even x) (round_half_even y)) as [L|G];
    [exact L | exfalso].
  pose proof (NumFacts.round_half_even_near x) as [_ Ux].
  pose proof (NumFacts.round_half_even_near y) as [Ly _].
  assert (S : inject_Z (round_half_even y) + 1 <= inject_Z (round_half_even x)).
  { change 1 with (inject_Z 1). rewrite <- inject_Z_plus, <- Zle_Qle. lia. }
  assert (E : x == y) by lra.
  apply NumFacts.round_half_even_comp in E. lia.
Qed.

Lemma round2_mono (x y : Q) : x <= y -> round2 x <= round2 y.
Proof.
  intros H. unfold round2.
  assert (Z0 : (round_half_even (x * 100) <= round_half_even (y * 100))%Z)
    by (apply round_half_even_mono; lra).
  rewrite Zle_Qle in Z0.
  apply Qle_shift_div_l; [lra|].
  setoid_replace (inject_Z (round_half_even (x * 100)) / 100 * 100)
    with (inject_Z (round_half_even (x * 100))) by field.
  exact Z0.
Qed.

(** A number of hundredths is left as it is by [round(x, 2)]. *)
Lemma round2_fixed (x : Q) (k : Z) : x * 100 == inject_Z k -> round2 x == x.
Proof.
  intros E. unfold round2. rewrite (round_half_even_inject _ k E).
  rewrite <- E. field.
Qed.

(** ** Sums of lexicon weights *)

Lemma lexicon_weights_halves :
  Forall (fun kv => 1 # 2 <= snd kv /\ snd kv <= 2
                    /\ snd kv == inject_Z (Qfloor (snd kv * 2)) / 2) lexicon.
Proof.
  apply Forall_forall. intros kv H.
  assert (B : forallb (fun kv => Qle_bool (1 # 2) (snd kv)
                                 && Qle_bool (snd kv) 2
                                 && Qeq_bool (snd kv)
                                      (inject_Z (Qfloor (snd kv * 2)) / 2))
                lexicon = true) by (vm_compute; reflexivity).
  rewrite forallb_forall in B. specialize (B kv H).
  rewrite !andb_true_iff, !Qle_bool_iff in B.
  destruct B as [[B1 B2] B3]. apply Qeq_bool_iff in B3. tauto.
Qed.

Lemma Forall_filter_sub {A} (P : A -> Prop) (f : A -> bool) (l : list A) :
  Forall P l -> Forall P (filter f l).
Proof.
  induction 1 as [|x l Px _ IH]; simpl; [constructor|].
  destruct (f x); [constructor|]; assumption.
Qed.

Lemma total_halves (items : Dict.dict Q) :
  Forall (fun kv => 1 # 2 <= snd kv /\ snd kv <= 2
                    /\ snd kv == inject_Z (Qfloor (snd kv * 2)) / 2) items ->
  (exists k : Z, Spec.total (map snd items) == inject_Z k / 2)
  /\ inject_Z (Z.of_nat (List.length items)) / 2 <= Spec.total (map snd items)
  /\ Spec.total (map snd items) <= 2 * inject_Z (Z.of_nat (List.length items)).
Proof.
  unfold Spec.total.
  induction 1 as [|kv items (L & U & E) _ ((k & Ek) & IL & IU)].
  - split; [exists 0%Z; reflexivity|]. split; vm_compute; discriminate.
  - cbn [map fold_right List.length].
    rewrite Nat2Z.inj_succ. unfold Z.succ. rewrite inject_Z_plus.
    change (inject_Z 1) with 1.
    split; [|clear E Ek;
             set (n := inject_Z (Z.of_nat (List.length items))) in *;
             set (T := fold_right Qplus 0 (map snd items)) in *;
             clearbody n T; unfold Qdiv in *; change (/ 2) with (1 # 2) in *;
             split; lra].
    exists (Qfloor (snd kv * 2) + k)%Z. rewrite inject_Z_plus, Ek.
    rewrite E at 1. field.
Qed.

Section ScoreBounds.

Variable lower : string -> string.
Variable now : datetime.
Variable t : string.

Lemma keywords_occurring :
  keywords (simple_stress_model lower now t) = Dict.keys (Spec.occurring (lower t)).
Proof.
  rewrite model_keywords. unfold matched_of. now rewrite scan_fst.
Qed.

Lemma occurring_facts :
  (exists k : Z, raw_score lower t == inject_Z k / 2)
  /\ inject_Z (Z.of_nat
                 (List.length (keywords (simple_stress_model lower now t))))
     / 2 <= raw_score lower t
  /\ raw_score lower t
     <= 2 * inject_Z (Z.of_nat
                        (List.length
                           (keywords (simple_stress_model lower now t)))).
Proof.
  rewrite keywords_occurring. unfold Dict.keys. rewrite List.length_map.
  pose proof (total_halves (Spec.occurring (lower t))
                (Forall_filter_sub _ _ _ lexicon_weights_halves))
    as ((k & Ek) & L & U).
  pose proof (raw_score_spec lower t) as E. unfold Spec.sum_of_weights in E.
  split; [exists k; now rewrite E|]. split; now rewrite E.
Qed.

Lemma raw_fixed : round2 (raw_score lower t) == raw_score lower t.
Proof.
  destruct occurring_facts as ((k & Ek) & _).
  apply (round2_fixed _ (50 * k)). rewrite Ek, inject_Z_mult.
  change (inject_Z 50) with 50. field.
Qed.

Lemma half_raw_fixed :
  round2 (raw_score lower t * (1 # 2)) == raw_score lower t * (1 # 2).
Proof.
  destruct occurring_facts as ((k & Ek) & _).
  apply (round2_fixed _ (25 * k)). rewrite Ek, inject_Z_mult.
  change (inject_Z 25) with 25. field.
Qed.

Lemma score_between :
  raw_score lower t * (1 # 2) <= score (simple_stress_model lower now t)
  /\ score (simple_stress_model lower now t) <= raw_score lower t.
Proof.
  rewrite model_score.
  pose proof (raw_score_nonneg lower t) as R0.
  pose proof (NumFacts.length_penalty_bounds (Str.len t)) as [P1 P2].
  split.
  - rewrite <- half_raw_fixed. apply round2_mono. nra.
  - rewrite <- raw_fixed at 2. apply round2_mono. nra.
Qed.

End ScoreBounds.

Lemma total_filter_le (f : string * Q -> bool) (items : Dict.dict Q) :
  Forall (fun kv => 0 < snd kv) items ->
  Spec.total (map snd (filter f items)) <= Spec.total (map snd items).
Proof.
  unfold Spec.total.
  induction 1 as [|kv items P _ IH]; simpl; [lra|].
  destruct (f kv); simpl; lra.
Qed.

Lemma total_filter_mono (f g : string * Q -> bool) (items : Dict.dict Q) :
  Forall (fun kv => 0 < snd kv) items ->
  (forall kv, f kv = true -> g kv = true) ->
  Spec.total (map snd (filter f items))
  <= Spec.total (map snd (filter g items)).
Proof.
  intros P H. unfold Spec.total.
  induction P as [|kv items P _ IH]; simpl; [lra|].
  destruct (f kv) eqn:F.
  - rewrite (H kv F). simpl. lra.
  - destruct (g kv); simpl; lra.
Qed.

(** ** Bounds of the score *)

(** The score lies between half the raw score and the raw score, and never
    exceeds 31, the sum of all weights of the lexicon. *)
Theorem score_within_raw (lower : string -> string) (now : datetime)
    (t : string) :
  raw_score lower t * (1 # 2) <= score (simple_stress_model lower now t)
  /\ score (simple_stress_model lower now t) <= raw_score lower t
  /\ raw_score lower t <= 31
  /\ Spec.total (map snd lexicon) == 31.
Proof.
  destruct (score_between lower now t) as [L U].
  split; [exact L|]. split; [exact U|].
  assert (T : Spec.total (map snd lexicon) == 31) by (vm_compute; reflexivity).
  split; [|exact T].
  rewrite raw_score_spec, <- T.
  apply total_filter_le, LexFacts.lexicon_weights_pos.
Qed.

(** A text of at most 99 characters scores the plain sum of the weights of
    its keywords; a text of 199 characters or more scores half of it. *)
Theorem score_by_length (lower : string -> string) (now : datetime)
    (t : string) :
  ((Str.len t <= 99)%nat ->
   score (simple_stress_model lower now t) == raw_score lower t)
  /\ ((199 <= Str.len t)%nat ->
      score (simple_stress_model lower now t) == raw_score lower t * (1 # 2)).
Proof.
  destruct (length_penalty_cases (Str.len t)) as (P1 & P2 & _).
  rewrite model_score. split; intros H.
  - assert (E : round2 (raw_score lower t * length_penalty (Str.len t))
                = round2 (raw_score lower t))
      by (apply NumFacts.round2_comp; rewrite (P1 H); apply Qmult_1_r).
    rewrite E. apply (raw_fixed lower now t).
  - assert (E : round2 (raw_score lower t * length_penalty (Str.len t))
                = round2 (raw_score lower t * (1 # 2)))
      by (apply NumFacts.round2_comp; now rewrite (P2 H)).
    rewrite E. apply (half_raw_fixed lower now t).
Qed.

(** A short text in capitals with one keyword of weight 2. *)
Lemma score_by_length_witness :
  (Str.len "PANIC at work" <= 99)%nat
  /\ score (simple_stress_model Str.ascii_lower 0%Z "PANIC at work")
     == raw_score Str.ascii_lower "PANIC at work".
Proof.
  assert (H : (Str.len "PANIC at work" <= 99)%nat) by (vm_compute; lia).
  split; [exact H|].
  exact (proj1 (score_by_length Str.ascii_lower 0%Z "PANIC at work") H).
Defined.

(** ** Keywords and labels *)

Lemma map_fst_nil {A B} (l : list (A * B)) : map fst l = [] -> l = [].
Proof. destruct l; [reflexivity | discriminate]. Qed.

(** No keyword is returned exactly when the score is 0, and exactly when the
    label is "Minimal"; with a keyword the score is 0.25 at least. *)
Theorem minimal_iff_no_keyword (lower : string -> string) (now : datetime)
    (t : string) :
  let r := simple_stress_model lower now t in
  (keywords r = [] <-> score r == 0)
  /\ (keywords r = [] <-> label r = "Minimal")
  /\ (keywords r <> [] -> 1 # 4 <= score r).
Proof.
  intros r.
  destruct (score_between lower now t) as [L U]. fold r in L, U.
  destruct (occurring_facts lower now t) as (_ & KL & KU). fold r in KL, KU.
  pose proof (model_score_nonneg lower now t) as S0. fold r in S0.
  assert (N : keywords r <> [] -> 1 # 4 <= score r).
  { intros Hne.
    assert (1 <= inject_Z (Z.of_nat (List.length (keywords r)))).
    { change 1 with (inject_Z 1). rewrite <- Zle_Qle.
      destruct (keywords r); [congruence | simpl; lia]. }
    unfold Qdiv in KL. change (/ 2) with (1 # 2) in KL.
    set (n := inject_Z _) in *. clearbody n. lra. }
  assert (E : keywords r = [] -> score r == 0).
  { intros Hnil. rewrite Hnil in KU. simpl in KU.
    change (inject_Z 0) with 0 in KU. lra. }
  assert (Z0 : keywords r = [] <-> score r == 0).
  { split; [exact E|]. intros H0.
    destruct (keywords r) eqn:K; [reflexivity|].
    assert (1 # 4 <= score r) by (apply N; discriminate). lra. }
  split; [exact Z0|]. split; [|exact N].
  rewrite Z0. unfold r. rewrite model_label. fold r.
  destruct (label_of_bands (score r) S0) as (_ & _ & _ & Hn). exact Hn.
Qed.

(** A text of 305 characters with keywords. *)
Lemma minimal_iff_no_keyword_witness :
  keywords (simple_stress_model Str.ascii_lower 0%Z
              (long_text ++ long_text ++ "sleep")) <> []
  /\ 1 # 4 <= score (simple_stress_model Str.ascii_lower 0%Z
                       (long_text ++ long_text ++ "sleep")).
Proof.
  assert (H : keywords (simple_stress_model Str.ascii_lower 0%Z
                          (long_text ++ long_text ++ "sleep")) <> [])
    by (vm_compute; discriminate).
  split; [exact H|].
  exact (proj2 (proj2 (minimal_iff_no_keyword Str.ascii_lower 0%Z
                         (long_text ++ long_text ++ "sleep"))) H).
Defined.

(** The label "High" takes three matched keywords at least, and "Moderate"
    two. *)
Theorem label_needs_keywords (lower : string -> string) (now : datetime)
    (t : string) :
  let r := simple_stress_model lower now t in
  (label r = "High" -> (3 <= List.length (keywords r))%nat)
  /\ (label r = "Moderate" -> (2 <= List.length (keywords r))%nat).
Proof.
  intros r.
  destruct (score_between lower now t) as [_ U]. fold r in U.
  destruct (occurring_facts lower now t) as (_ & _ & KU). fold r in KU.
  pose proof (model_score_nonneg lower now t) as S0. fold r in S0.
  destruct (label_of_bands (score r) S0) as (Hh & Hm & _).
  assert (L : label r = label_of (score r)) by apply model_label.
  split; intros H; rewrite L in H.
  - apply Hh in H. unfold Spec.high in H.
    assert (Q3 : inject_Z 3 <= inject_Z (Z.of_nat (List.length (keywords r)))).
    { change (inject_Z 3) with 3. set (n := inject_Z _) in *. clearbody n. lra. }
    rewrite <- Zle_Qle in Q3. lia.
  - apply Hm in H. unfold Spec.moderate in H.
    assert (Q1 : inject_Z 1 < inject_Z (Z.of_nat (List.length (keywords r)))).
    { change (inject_Z 1) with 1. set (n := inject_Z _) in *. clearbody n. lra. }
    rewrite <- Zlt_Qlt in Q1. lia.
Qed.

(** Three keywords of weight 2 in a short text give "High". *)
Lemma label_needs_keywords_witness :
  label (simple_stress_model Str.ascii_lower 0%Z "panic, burnout, hopeless")
  = "High"
  /\ (3 <= List.length
             (keywords (simple_stress_model Str.ascii_lower 0%Z
                          "panic, burnout, hopeless")))%nat.
Proof.
  assert (H : label (simple_stress_model Str.ascii_lower 0%Z
                       "panic, burnout, hopeless") = "High")
    by (vm_compute; reflexivity).
  split; [exact H|].
  exact (proj1 (label_needs_keywords Str.ascii_lower 0%Z
                  "panic, burnout, hopeless") H).
Defined.

(** A keyword is returned exactly when it is a key of the lexicon and the
    lower-cased text is some [pre ++ kw ++ post]. *)
Theorem keyword_matched_iff (lower : string -> string) (now : datetime)
    (t kw : string) :
  In kw (keywords (simple_stress_model lower now t))
  <-> In kw (Dict.keys lexicon)
      /\ exists pre post, lower t = pre ++ kw ++ post.
Proof.
  rewrite model_keywords, matched_filter, filter_In.
  now rewrite StrFacts.contains_iff.
Qed.

(** ** Case and context of the text *)

Lemma ascii_lower_char_idem (c : ascii) :
  Str.ascii_lower_char (Str.ascii_lower_char c) = Str.ascii_lower_char c.
Proof.
  destruct c as [[] [] [] [] [] [] [] []]; vm_compute; reflexivity.
Qed.

Lemma ascii_lower_idem (s : string) :
  Str.ascii_lower (Str.ascii_lower s) = Str.ascii_lower s.
Proof.
  induction s as [|c s IH]; simpl; [reflexivity|].
  now rewrite ascii_lower_char_idem, IH.
Qed.

Lemma ascii_lower_len (s : string) :
  Str.len (Str.ascii_lower s) = Str.len s.
Proof.
  unfold Str.len. induction s as [|c s IH]; simpl; [reflexivity|].
  now rewrite IH.
Qed.

Lemma ascii_lower_app (a b : string) :
  Str.ascii_lower (a ++ b) = Str.ascii_lower a ++ Str.ascii_lower b.
Proof.
  induction a as [|c a IH]; simpl; [reflexivity|]. now rewrite IH.
Qed.

(** Two texts of the same length with the same lower-cased form get the
    same result; so an ASCII text and its lower-cased form do. *)
Theorem case_does_not_matter :
  (forall (lower : string -> string) (now : datetime) (t1 t2 : string),
      lower t1 = lower t2 -> Str.len t1 = Str.len t2 ->
      simple_stress_model lower now t1 = simple_stress_model lower now t2)
  /\ (forall (now : datetime) (t : string),
         simple_stress_model Str.ascii_lower now (Str.ascii_lower t)
         = simple_stress_model Str.ascii_lower now t).
Proof.
  assert (G : forall (lower : string -> string) (now : datetime)
                     (t1 t2 : string),
             lower t1 = lower t2 -> Str.len t1 = Str.len t2 ->
             simple_stress_model lower now t1
             = simple_stress_model lower now t2).
  { intros lower now t1 t2 E L. unfold simple_stress_model.
    rewrite E, L. reflexivity. }
  split; [exact G|].
  intros now t. apply G; [apply ascii_lower_idem | apply ascii_lower_len].
Qed.

Lemma case_does_not_matter_witness :
  simple_stress_model Str.ascii_lower 0%Z "I AM SO TIRED"
  = simple_stress_model Str.ascii_lower 0%Z "i am so tired".
Proof.
  apply (proj1 case_does_not_matter Str.ascii_lower 0%Z
           "I AM SO TIRED" "i am so tired"); reflexivity.
Defined.

Lemma contains_inside (kw pre u post : string) :
  Str.contains kw u = true -> Str.contains kw (pre ++ u ++ post) = true.
Proof.
  rewrite !StrFacts.contains_iff. intros (a & b & ->).
  exists (pre ++ a), (b ++ post).
  now rewrite !StrFacts.append_assoc.
Qed.

(** Text put before and after a text loses no keyword and does not lower
    the raw score, when lower-casing acts on the three parts one by one (as
    it does on ASCII text). *)
Theorem context_keeps_keywords (lower : string -> string) (now : datetime)
    (a t b : string) :
  lower (a ++ t ++ b) = lower a ++ lower t ++ lower b ->
  incl (keywords (simple_stress_model lower now t))
       (keywords (simple_stress_model lower now (a ++ t ++ b)))
  /\ raw_score lower t <= raw_score lower (a ++ t ++ b).
Proof.
  intros H. split.
  - intros kw. rewrite !model_keywords, !matched_filter, !filter_In, H.
    intros [K C]. split; [exact K | now apply contains_inside].
  - rewrite !raw_score_spec. unfold Spec.sum_of_weights, Spec.occurring.
    apply total_filter_mono; [apply LexFacts.lexicon_weights_pos|].
    intros kv. unfold Spec.occurs. rewrite H. apply contains_inside.
Qed.

Lemma context_keeps_keywords_witness :
  incl (keywords (simple_stress_model Str.ascii_lower 0%Z "no sleep"))
       (keywords (simple_stress_model Str.ascii_lower 0%Z
                    ("Worry, " ++ "no sleep" ++ " again"))).
Proof.
  exact (proj1 (context_keeps_keywords Str.ascii_lower 0%Z
                  "Worry, " "no sleep" " again"
                  (eq_trans (ascii_lower_app _ _)
                     (f_equal _ (ascii_lower_app _ _))))).
Defined.

(** ** The handlers, whatever the store does *)

(** A text of exactly 10 characters is accepted. *)
Lemma valid_text_scored_witness :
  (10 <= Str.len "ten chars!")%nat
  /\ exists r w',
       post_assess Str.ascii_lower (Some failing_database) "ten chars!"
         (mkWorld tt 0%Z [])
       = (inr (Ok200 r), w')
       /\ scored w' = ["ten chars!"].
Proof.
  assert (H : (10 <= Str.len "ten chars!")%nat) by (vm_compute; lia).
  split; [exact H|].
  destruct (valid_text_scored Str.ascii_lower unit (Some failing_database)
              "ten chars!" (mkWorld tt 0%Z []) H) as (r & w' & E & _ & S).
  exists r, w'. split; [exact E | exact S].
Defined.

(** [get_history] never raises, never calls the scorer and leaves the clock
    alone; without the [database] module it leaves the whole world as it
    was and returns the empty list. *)
Theorem get_history_never_scores (py_str : value -> string) (Store : Type)
    (db : option (database Store)) (limit : Z) (w : World Store) :
  (exists (docs : list document) (w' : World Store),
      get_history py_str db limit w = (inr docs, w')
      /\ scored w' = scored w /\ clock w' = clock w)
  /\ (db = None -> get_history py_str db limit w = (inr [], w)).
Proof.
  unfold get_history, bind, try_except, import_database, call_store, ret,
    raise.
  destruct db as [d|]; cbn [fst snd store clock scored].
  - split; [|discriminate].
    store_call_cases e docs; do 2 eexists; (split; [reflexivity|]);
      cbn [store clock scored]; tauto.
  - split; [|reflexivity]. exists [], w. tauto.
Qed.

(** ** The diagnostic endpoint *)

Lemma utf8_take_length (n : nat) (s : string) :
  (utf8_length (utf8_take n s) <= n)%nat.
Proof.
  revert n. induction s as [|c s IH]; intros n; simpl; [lia|].
  destruct (utf8_continuation c) eqn:C; simpl.
  - rewrite C. apply IH.
  - destruct n as [|n]; simpl; [lia|]. rewrite C. specialize (IH n). lia.
Qed.

Lemma utf8_take_prefix (n : nat) (s : string) :
  exists rest, s = utf8_take n s ++ rest.
Proof.
  revert n. induction s as [|c s IH]; intros n; simpl.
  - now exists "".
  - destruct (utf8_continuation c).
    + destruct (IH n) as [rest E]. exists rest. simpl. now rewrite <- E.
    + destruct n as [|n]; simpl.
      * now exists (String c s).
      * destruct (IH n) as [rest E]. exists rest. now rewrite <- E.
Qed.

Lemma utf8_take_all (n : nat) (s : string) :
  (utf8_length s <= n)%nat -> utf8_take n s = s.
Proof.
  revert n. induction s as [|c s IH]; intros n; simpl; [reflexivity|].
  destruct (utf8_continuation c).
  - intros H. now rewrite IH.
  - destruct n as [|n]; intros H; [lia|]. rewrite IH by lia. reflexivity.
Qed.

Section DiagnosticFacts.

Variable exn_str : exn -> string.
Variable getenv : string -> option string.
Variable imported_db : exn + option db_handle.

Let report := test_database exn_str getenv imported_db.

(** The paths through [test_database]. *)
Ltac diagnostic_paths :=
  unfold report, test_database, probe_database;
  destruct imported_db as [[|msg]|[[name [e|names]]|]];
  cbn [db_name list_collection_names].

(** The fields "database_url" and "database_name" of the report say whether
    the variables DATABASE_URL and DATABASE_NAME are set to a non-empty
    string, whatever the database is: what lines 116-117 store is never
    returned. *)
Theorem diagnostic_env_fields :
  Dict.get report "database_url"
  = Some (VStr (if truthy (getenv "DATABASE_URL")
                then "✅ Set" else "❌ Not Set"))
  /\ Dict.get report "database_name"
     = Some (VStr (if truthy (getenv "DATABASE_NAME")
                   then "✅ Set" else "❌ Not Set"))
  /\ truthy None = false /\ truthy (Some "") = false.
Proof.
  unfold report, test_database. cbv zeta.
  rewrite !DictFacts.get_set. repeat split.
Qed.

(** The report always has the same six keys in the same order, its
    "backend" is always "✅ Running", and its "connection_status" is
    "Connected" exactly when the import gave a [db] that is not [None]. *)
Theorem diagnostic_shape :
  Dict.keys report
  = ["backend"; "database"; "database_url"; "database_name";
     "connection_status"; "collections"]
  /\ Dict.get report "backend" = Some (VStr "✅ Running")
  /\ Dict.get report "connection_status"
     = Some (VStr match imported_db with
                  | inr (Some _) => "Connected"
                  | _ => "Not Connected"
                  end).
Proof. diagnostic_paths; repeat split. Qed.

(** "collections" holds the first ten names the database lists, and the
    empty list when there is no database or the listing raises. *)
Theorem diagnostic_collections :
  exists names : list string,
    Dict.get report "collections" = Some (VList names)
    /\ (List.length names <= 10)%nat
    /\ match imported_db with
       | inr (Some db) =>
           match list_collection_names db with
           | inr all => names = firstn 10 all
           | inl _ => names = []
           end
       | _ => names = []
       end.
Proof.
  diagnostic_paths;
    try (exists []; repeat split; simpl; lia).
  exists (firstn 10 names). repeat split. apply firstn_le_length.
Qed.

(** "database" is never left at "❌ Not Available" nor at "✅ Available",
    the values of lines 105 and 115: every path overwrites them.  When
    the import or the listing raises another exception, it is the
    message of the path followed by the first 50 characters of [str(e)]:
    at most 50 characters, a prefix of [str(e)], and the whole of it when
    it has 50 characters or fewer. *)
Theorem diagnostic_database_field :
  exists m : string,
    Dict.get report "database" = Some (VStr m)
    /\ m <> "❌ Not Available" /\ m <> "✅ Available"
    /\ match imported_db with
       | inl ImportError =>
           m = "❌ Database module not found (run enable-database first)"
       | inl e => m = "❌ Error: " ++ first50 (exn_str e)
       | inr None => m = "⚠️  Available but not initialized"
       | inr (Some db) =>
           match list_collection_names db with
           | inr _ => m = "✅ Connected & Working"
           | inl e => m = "⚠️  Connected but Error: " ++ first50 (exn_str e)
           end
       end
    /\ forall e,
         (utf8_length (first50 (exn_str e)) <= 50)%nat
         /\ (exists rest, exn_str e = first50 (exn_str e) ++ rest)
         /\ ((utf8_length (exn_str e) <= 50)%nat ->
             first50 (exn_str e) = exn_str e).
Proof.
  assert (F : forall e,
             (utf8_length (first50 (exn_str e)) <= 50)%nat
             /\ (exists rest, exn_str e = first50 (exn_str e) ++ rest)
             /\ ((utf8_length (exn_str e) <= 50)%nat ->
                 first50 (exn_str e) = exn_str e))
    by (intros e; split; [apply utf8_take_length|];
        split; [apply utf8_take_prefix | apply utf8_take_all]).
  diagnostic_paths; eexists; (split; [reflexivity|]);
    (split; [|split; [|split; [reflexivity | exact F]]]);
    try discriminate; cbn [append]; discriminate.
Qed.

End DiagnosticFacts.

(** Thirty "é" are 60 bytes and 30 characters: [str(e)[:50]] keeps them
    all, and of sixty it keeps fifty. *)
Lemma first50_counts_characters :
  first50 "éééééééééééééééééééééééééééééé" = "éééééééééééééééééééééééééééééé"
  /\ String.length "éééééééééééééééééééééééééééééé" = 60%nat
  /\ utf8_length
       (first50 ("éééééééééééééééééééééééééééééé"
                 ++ "éééééééééééééééééééééééééééééé")) = 50%nat.
Proof. repeat split. Qed.
